(** * votageBot: the auto-responder and reminder bot of [votage.py]

    A shallow embedding of [AutoResponderBot] and the properties of its
    time-expression parser, its auto-response matcher, its command
    handlers, its scheduling at start-up and the sequences of events it
    handles.

    Conventions of the embedding.
    - A Python [str] is a [string]; each character stands for one code point
      below 256 (the Latin-1 range of Unicode), on which [str.lower],
      [str.isspace] and the regular-expression classes [\d] and [\s] are
      modelled exactly.  Texts with larger code points are outside the model;
      the decorated texts the bot itself sends are therefore constructors of
      [text], each quoted from the source.
    - A Python [int] is a [Z].
    - A naive [datetime] is its proleptic Gregorian ordinal (what
      [toordinal()] returns) together with its time of day.
    - A handler is a function from the bot's state and its inputs to an
      [outcome]: the new state, the calls made to the collaborators (chat
      gateway, store, scheduler) in order, and the exception that escaped,
      if any.  Clock readings and the collaborators' answers are inputs. *)

From Stdlib Require Import ZArith Ascii String List Bool Lia Permutation Sorted.
From stdpp Require Import base option list gmap strings.

Local Open Scope Z_scope.

(** ** Text *)

Module Text.

(** [ord(c)] and [chr(n)]. *)
Definition ord (c : ascii) : Z := Z.of_N (N_of_ascii c).
Definition chr (n : Z) : ascii := ascii_of_N (Z.to_N n).

(** [c.isspace()] on code points below 256: the characters 9 to 13, 28 to 32,
    U+0085 and U+00A0.  The class [\s] of [re] on [str] patterns is the same
    set. *)
Definition isspace (c : ascii) : bool :=
  let n := ord c in
  ((9 <=? n) && (n <=? 13)) || ((28 <=? n) && (n <=? 32))
  || (n =? 133) || (n =? 160).

(** The class [\d] of [re] on [str] patterns (decimal digits); below 256
    these are ["0"] to ["9"]. *)
Definition isdigit (c : ascii) : bool :=
  let n := ord c in (48 <=? n) && (n <=? 57).

(** The value of a decimal digit. *)
Definition digit_value (c : ascii) : Z := ord c - 48.

(** [c.lower()] on code points below 256: [A-Z] and the upper-case letters
    U+00C0 to U+00DE (U+00D7, the multiplication sign, is not a letter). *)
Definition lower_char (c : ascii) : ascii :=
  let n := ord c in
  if ((65 <=? n) && (n <=? 90))
     || ((192 <=? n) && (n <=? 222) && negb (n =? 215))
  then chr (n + 32) else c.

(** [s.lower()]. *)
Fixpoint lower (s : string) : string :=
  match s with
  | EmptyString => EmptyString
  | String c s' => String (lower_char c) (lower s')
  end.

(** [s.lstrip()], [s.rstrip()] and [s.strip()]. *)
Fixpoint lstrip (s : string) : string :=
  match s with
  | EmptyString => EmptyString
  | String c s' => if isspace c then lstrip s' else s
  end.

Fixpoint rstrip (s : string) : string :=
  match s with
  | EmptyString => EmptyString
  | String c s' =>
      match rstrip s' with
      | EmptyString => if isspace c then EmptyString else String c EmptyString
      | r => String c r
      end
  end.

Definition strip (s : string) : string := rstrip (lstrip s).

(** [len(s)] as an [int]. *)
Definition len (s : string) : Z := Z.of_nat (String.length s).

(** [s.startswith(p)]. *)
Fixpoint startswith (p s : string) : bool :=
  match p, s with
  | EmptyString, _ => true
  | String a p', String b s' => Ascii.eqb a b && startswith p' s'
  | String _ _, EmptyString => false
  end.

(** [t in s]: [t] occurs somewhere inside [s]. *)
Fixpoint contains (t s : string) : bool :=
  startswith t s ||
  match s with
  | EmptyString => false
  | String _ s' => contains t s'
  end.

(** [s[n:]] for [n >= 0]. *)
Fixpoint drop (n : nat) (s : string) : string :=
  match n, s with
  | O, _ => s
  | S n', String _ s' => drop n' s'
  | S _, EmptyString => EmptyString
  end.

(** [s[:-1]] and [s[-1]] (the latter is [None] where Python raises
    [IndexError]). *)
Fixpoint init (s : string) : string :=
  match s with
  | EmptyString => EmptyString
  | String c EmptyString => EmptyString
  | String c s' => String c (init s')
  end.

Fixpoint last (s : string) : option ascii :=
  match s with
  | EmptyString => None
  | String c EmptyString => Some c
  | String _ s' => last s'
  end.

(** [s.split(sep, 1)] for a one-character [sep] that occurs in [s]: the text
    before the first [sep] and the text after it.  Without an occurrence the
    whole text is the first part. *)
Fixpoint split_once (sep : ascii) (s : string) : string * string :=
  match s with
  | EmptyString => (EmptyString, EmptyString)
  | String c s' =>
      if Ascii.eqb c sep then (EmptyString, s')
      else let '(a, b) := split_once sep s' in (String c a, b)
  end.

(** [' '.join(args)]. *)
Definition join (sep : string) (args : list string) : string :=
  String.concat sep args.

(** Truthiness of a [str]: [not s]. *)
Definition is_empty (s : string) : bool :=
  match s with EmptyString => true | _ => false end.

(** All characters of [s] satisfy [p]. *)
Fixpoint all (p : ascii -> bool) (s : string) : bool :=
  match s with
  | EmptyString => true
  | String c s' => p c && all p s'
  end.

(** [int(s)] for a text of decimal digits, most significant first. *)
Fixpoint int_digits_from (acc : Z) (s : string) : Z :=
  match s with
  | EmptyString => acc
  | String c s' => int_digits_from (10 * acc + digit_value c) s'
  end.

Definition int_digits (s : string) : Z := int_digits_from 0 s.

(** [str(n)] for [n >= 0]: the decimal numeral of [n], the digits of
    [n // 10] followed by the digit [n % 10]. *)
Fixpoint str_digits (fuel : nat) (n : Z) : string :=
  match fuel with
  | O => String (chr (48 + n mod 10)) EmptyString
  | S fuel' =>
      if n <? 10 then String (chr (48 + n)) EmptyString
      else str_digits fuel' (n / 10) +:+ String (chr (48 + n mod 10)) EmptyString
  end.

Definition str (n : Z) : string := str_digits (Z.to_nat (Z.log2 n)) n.

(** [f"{n:02d}"] for [n >= 0]: at least two digits. *)
Definition pad2 (n : Z) : string :=
  if n <? 10 then String "0" (str n) else str n.

(** [f"{n:04d}"] for [n >= 0]: at least four digits. *)
Definition pad4 (n : Z) : string :=
  if n <? 10 then "000" +:+ str n
  else if n <? 100 then "00" +:+ str n
  else if n <? 1000 then "0" +:+ str n
  else str n.

End Text.

(** ** Exceptions and results *)

(** The exceptions the embedded code meets.  [Error msg] is any other
    exception with [str(e) = msg], as a collaborator may raise. *)
Inductive exception : Type :=
  | ValueError
  | OverflowError
  | Error (msg : string).

(** What a call evaluates to: its value, or the exception it raises. *)
Inductive result (A : Type) : Type :=
  | Ok (a : A)
  | Raise (e : exception).

Arguments Ok {A} a.
Arguments Raise {A} e.

Definition raised {A : Type} (r : result A) : bool :=
  match r with Ok _ => false | Raise _ => true end.

(** [int(s)] in base ten: surrounding whitespace is ignored, one sign is
    allowed, and single underscores may separate digits.  Anything else is a
    [ValueError].  (The limit CPython 3.11 puts on the number of digits is a
    setting of the interpreter and is not modelled.) *)
Fixpoint int_body (after_digit : bool) (acc : Z) (s : string) : option Z :=
  match s with
  | EmptyString => if after_digit then Some acc else None
  | String c s' =>
      if Text.isdigit c then int_body true (10 * acc + Text.digit_value c) s'
      else if Ascii.eqb c "_" && after_digit then
        match s' with
        | String d _ => if Text.isdigit d then int_body false acc s' else None
        | EmptyString => None
        end
      else None
  end.

Definition int (s : string) : result Z :=
  let s := Text.strip s in
  let '(sign, body) :=
    match s with
    | String c s' =>
        if Ascii.eqb c "-" then (-1, s')
        else if Ascii.eqb c "+" then (1, s') else (1, s)
    | EmptyString => (1, s)
    end in
  match int_body false 0 body with
  | Some n => Ok (sign * n)
  | None => Raise ValueError
  end.

(** ** Dates and times: the part of [datetime] the bot uses *)

Module Datetime.

Definition MINYEAR : Z := 1.
Definition MAXYEAR : Z := 9999.
(** [date.max.toordinal()]. *)
Definition _MAXORDINAL : Z := 3652059.

Definition _is_leap (year : Z) : bool :=
  (year mod 4 =? 0) && (negb (year mod 100 =? 0) || (year mod 400 =? 0)).

Definition _days_before_year (year : Z) : Z :=
  let y := year - 1 in y * 365 + y / 4 - y / 100 + y / 400.

Definition _days_in_month (year month : Z) : Z :=
  if month =? 2 then (if _is_leap year then 29 else 28)
  else if (month =? 4) || (month =? 6) || (month =? 9) || (month =? 11) then 30
  else 31.

Definition _days_before_month (year month : Z) : Z :=
  nth (Z.to_nat month) [0; 0; 31; 59; 90; 120; 151; 181; 212; 243; 273; 304; 334] 0
  + (if (2 <? month) && _is_leap year then 1 else 0).

Definition _ymd2ord (year month day : Z) : Z :=
  _days_before_year year + _days_before_month year month + day.

(** A naive [datetime]: the ordinal of its date and its time of day. *)
Record datetime : Type := mk_datetime {
  ordinal : Z;
  hour : Z;
  minute : Z;
  second : Z;
  microsecond : Z
}.

(** The values a [datetime] object can hold: year 1 to year 9999. *)
Definition valid (t : datetime) : Prop :=
  1 <= ordinal t <= _MAXORDINAL /\ 0 <= hour t < 24 /\ 0 <= minute t < 60
  /\ 0 <= second t < 60 /\ 0 <= microsecond t < 1000000.

(** Microseconds from the start of day 0: the position on the time line. *)
Definition to_micros (t : datetime) : Z :=
  (((ordinal t * 24 + hour t) * 60 + minute t) * 60 + second t) * 1000000
  + microsecond t.

(** [datetime(year, month, day, hour, minute, second, microsecond)]:
    [ValueError] on a field out of range. *)
Definition _check_date_fields (year month day : Z) : bool :=
  (MINYEAR <=? year) && (year <=? MAXYEAR) && (1 <=? month) && (month <=? 12)
  && (1 <=? day) && (day <=? _days_in_month year month).

Definition _check_time_fields (hour minute second microsecond : Z) : bool :=
  (0 <=? hour) && (hour <=? 23) && (0 <=? minute) && (minute <=? 59)
  && (0 <=? second) && (second <=? 59)
  && (0 <=? microsecond) && (microsecond <=? 999999).

Definition new (year month day hour minute second microsecond : Z)
  : result datetime :=
  if _check_date_fields year month day
     && _check_time_fields hour minute second microsecond
  then Ok (mk_datetime (_ymd2ord year month day) hour minute second microsecond)
  else Raise ValueError.

(** [t.replace(hour=9, minute=0, second=0, microsecond=0)] and
    [t.replace(hour=h, minute=m)], for field values in range. *)
Definition replace_time (t : datetime) (h m s us : Z) : datetime :=
  mk_datetime (ordinal t) h m s us.

Definition replace_hour_minute (t : datetime) (h m : Z) : datetime :=
  mk_datetime (ordinal t) h m (second t) (microsecond t).

(** [a <= b]: the fields compared in order. *)
Definition cmp (a b : datetime) : comparison :=
  match ordinal a ?= ordinal b with
  | Eq => match hour a ?= hour b with
          | Eq => match minute a ?= minute b with
                  | Eq => match second a ?= second b with
                          | Eq => microsecond a ?= microsecond b
                          | c => c
                          end
                  | c => c
                  end
          | c => c
          end
  | c => c
  end.

Definition leb (a b : datetime) : bool :=
  match cmp a b with Gt => false | _ => true end.

(** A [timedelta], normalised as Python keeps it:
    [0 <= seconds < 86400], [0 <= microseconds < 1000000]. *)
Record timedelta : Type := mk_timedelta {
  days : Z;
  seconds : Z;
  microseconds : Z
}.

(** [timedelta(days=, seconds=, microseconds=, minutes=, hours=)] on [int]
    arguments: [OverflowError] when the magnitude exceeds 999999999 days. *)
Definition timedelta_new (days seconds microseconds minutes hours : Z)
  : result timedelta :=
  let s := seconds + minutes * 60 + hours * 3600 + microseconds / 1000000 in
  let d := days + s / 86400 in
  if Z.abs d <=? 999999999
  then Ok (mk_timedelta d (s mod 86400) (microseconds mod 1000000))
  else Raise OverflowError.

Definition timedelta_add (a b : timedelta) : result timedelta :=
  timedelta_new (days a + days b) (seconds a + seconds b)
    (microseconds a + microseconds b) 0 0.

(** [a - b] on two [datetime]s, in microseconds ([total_seconds()] of the
    difference times 10^6; the rounding of the float is not modelled). *)
Definition diff_micros (a b : datetime) : Z := to_micros a - to_micros b.

(** [self + other] for a [datetime] and a [timedelta]: [OverflowError] when
    the sum leaves year 1 to year 9999. *)
Definition add (self : datetime) (other : timedelta) : result datetime :=
  match timedelta_new (ordinal self) (second self) (microsecond self)
          (minute self) (hour self) with
  | Raise e => Raise e
  | Ok t =>
      match timedelta_add t other with
      | Raise e => Raise e
      | Ok delta =>
          let hour := seconds delta / 3600 in
          let rem := seconds delta mod 3600 in
          if (0 <? days delta) && (days delta <=? _MAXORDINAL)
          then Ok (mk_datetime (days delta) hour (rem / 60) (rem mod 60)
                     (microseconds delta))
          else Raise OverflowError
      end
  end.

End Datetime.

(** ** [datetime.strptime]: CPython's [_strptime], for the directives used *)

Module Strptime.

Import Datetime.

(** The regular expressions [_strptime.TimeRE] builds.  Matching is the
    backtracking search of [re]: [rmatch r s] lists, in the order [re] tries
    them, the ways [r] matches a prefix of [s], each as the matched text and
    the rest. *)
Inductive regex : Type :=
  | Lit (c : ascii)           (* a literal character, under [re.IGNORECASE] *)
  | Range (lo hi : ascii)     (* [lo-hi], between digits *)
  | Digit                     (* \d *)
  | Spaces                    (* \s+, greedy *)
  | Cat (r1 r2 : regex)       (* r1 r2 *)
  | Alt (r1 r2 : regex).      (* r1|r2 *)

(** The ways [\s+] matches: the longest run of whitespace first. *)
Fixpoint spaces (s : string) : list (string * string) :=
  match s with
  | EmptyString => []
  | String c s' =>
      if Text.isspace c
      then map (fun '(m, r) => (String c m, r)) (spaces s')
           ++ [(String c EmptyString, s')]
      else []
  end.

Definition one (ok : ascii -> bool) (s : string) : list (string * string) :=
  match s with
  | String c s' => if ok c then [(String c EmptyString, s')] else []
  | EmptyString => []
  end.

Fixpoint rmatch (r : regex) (s : string) : list (string * string) :=
  match r with
  | Lit c => one (fun x => Ascii.eqb (Text.lower_char x) (Text.lower_char c)) s
  | Range lo hi =>
      one (fun x => (Text.ord lo <=? Text.ord x) && (Text.ord x <=? Text.ord hi)) s
  | Digit => one Text.isdigit s
  | Spaces => spaces s
  | Cat r1 r2 =>
      flat_map (fun '(m1, s1) =>
                  map (fun '(m2, s2) => (m1 +:+ m2, s2)) (rmatch r2 s1))
               (rmatch r1 s)
  | Alt r1 r2 => rmatch r1 s ++ rmatch r2 s
  end.

(** The expression of a directive, as [TimeRE.__init__] writes it; [%p] is
    [am|pm], the names of the C and English locales. *)
Definition directive (c : ascii) : option regex :=
  if Ascii.eqb c "d" then
    (* 3[0-1]|[1-2]\d|0[1-9]|[1-9]| [1-9] *)
    Some (Alt (Cat (Lit "3") (Range "0" "1"))
         (Alt (Cat (Range "1" "2") Digit)
         (Alt (Cat (Lit "0") (Range "1" "9"))
         (Alt (Range "1" "9")
              (Cat (Lit " ") (Range "1" "9"))))))
  else if Ascii.eqb c "H" then
    (* 2[0-3]|[0-1]\d|\d *)
    Some (Alt (Cat (Lit "2") (Range "0" "3"))
         (Alt (Cat (Range "0" "1") Digit) Digit))
  else if Ascii.eqb c "I" || Ascii.eqb c "m" then
    (* 1[0-2]|0[1-9]|[1-9] *)
    Some (Alt (Cat (Lit "1") (Range "0" "2"))
         (Alt (Cat (Lit "0") (Range "1" "9")) (Range "1" "9")))
  else if Ascii.eqb c "M" then
    (* [0-5]\d|\d *)
    Some (Alt (Cat (Range "0" "5") Digit) Digit)
  else if Ascii.eqb c "S" then
    (* 6[0-1]|[0-5]\d|\d *)
    Some (Alt (Cat (Lit "6") (Range "0" "1"))
         (Alt (Cat (Range "0" "5") Digit) Digit))
  else if Ascii.eqb c "Y" then
    (* \d\d\d\d *)
    Some (Cat Digit (Cat Digit (Cat Digit Digit)))
  else if Ascii.eqb c "p" then
    (* am|pm *)
    Some (Alt (Cat (Lit "a") (Lit "m")) (Cat (Lit "p") (Lit "m")))
  else None.

(** A compiled format: named groups and plain expressions in sequence. *)
Inductive item : Type :=
  | Group (name : ascii) (r : regex)
  | Plain (r : regex).

(** [TimeRE.pattern]: a run of whitespace becomes [\s+], [%x] the group of
    directive [x], any other character itself.  [None] where Python reports
    a bad directive or a stray [%]. *)
Fixpoint pattern (format : string) : option (list item) :=
  match format with
  | EmptyString => Some []
  | String c rest =>
      if Ascii.eqb c "%" then
        match rest with
        | String d rest' =>
            match directive d, pattern rest' with
            | Some r, Some items => Some (Group d r :: items)
            | _, _ => None
            end
        | EmptyString => None
        end
      else
        match pattern rest with
        | Some items =>
            if Text.isspace c then
              match items with
              | Plain Spaces :: _ => Some items
              | _ => Some (Plain Spaces :: items)
              end
            else Some (Plain (Lit c) :: items)
        | None => None
        end
  end.

(** [found.groupdict()]: the text of each named group. *)
Definition groupdict : Type := list (ascii * string).

Fixpoint get (found : groupdict) (name : ascii) : option string :=
  match found with
  | [] => None
  | (k, v) :: found' => if Ascii.eqb k name then Some v else get found' name
  end.

(** [format_regex.match(data_string)]: the matches of the whole sequence, in
    the order of the search; the first one is the match [re] returns. *)
Fixpoint match_items (items : list item) (s : string)
  : list (groupdict * string) :=
  match items with
  | [] => [([], s)]
  | Group name r :: items' =>
      flat_map (fun '(m, s1) =>
                  map (fun '(found, s2) => ((name, m) :: found, s2))
                      (match_items items' s1))
               (rmatch r s)
  | Plain r :: items' =>
      flat_map (fun '(_, s1) => match_items items' s1) (rmatch r s)
  end.

(** The integer of a group, or [default] without the group. *)
Definition field (found : groupdict) (name : ascii) (default : Z) : result Z :=
  match get found name with
  | Some text => int text
  | None => Ok default
  end.

Definition bind {A B : Type} (r : result A) (f : A -> result B) : result B :=
  match r with Ok a => f a | Raise e => Raise e end.

(** The second half of [_strptime]: the fields read from the groups.  The
    year defaults to 1900, month and day to 1, the time to midnight; [%I] is
    read with [%p] on the twelve-hour clock; the fields must then make a
    date and a time. *)
Definition from_groups (found : groupdict) : result datetime :=
  bind (field found "Y" 1900) (fun year =>
  bind (field found "m" 1) (fun month =>
  bind (field found "d" 1) (fun day =>
  bind (field found "H" 0) (fun hour =>
  bind (match get found "I" with
        | Some text =>
            bind (int text) (fun hour =>
            let ampm := Text.lower (default EmptyString (get found "p")) in
            if String.eqb ampm "" || String.eqb ampm "am"
            then Ok (if hour =? 12 then 0 else hour)
            else if String.eqb ampm "pm"
            then Ok (if hour =? 12 then hour else hour + 12)
            else Ok hour)
        | None => Ok hour
        end) (fun hour =>
  bind (field found "M" 0) (fun minute =>
  bind (field found "S" 0) (fun second =>
  new year month day hour minute second 0))))))).

(** [datetime.strptime(data_string, format)].  The text must match the
    format's expression and the match must end where the text ends.  Every
    failure is a [ValueError]. *)
Definition strptime (data_string format : string) : result datetime :=
  match pattern format with
  | None => Raise ValueError
  | Some items =>
      match match_items items data_string with
      | [] => Raise ValueError
      | (found, rest) :: _ =>
          if negb (Text.is_empty rest) then Raise ValueError
          else from_groups found
      end
  end.

End Strptime.

(** ** The time-expression parser *)

Definition is_unit (c : ascii) : bool :=
  Ascii.eqb c "s" || Ascii.eqb c "m" || Ascii.eqb c "h" || Ascii.eqb c "d".

(** [re.match(r'^\d+[smhd]$', s)].  [$] matches at the end of the text and
    also just before a newline that ends it. *)
Fixpoint relative_tail (s : string) : bool :=
  match s with
  | EmptyString => false
  | String c s' =>
      if Text.isdigit c then relative_tail s'
      else is_unit c
           && (Text.is_empty s' || String.eqb s' (String "010" EmptyString))
  end.

Definition relative_re (s : string) : bool :=
  match s with
  | String c s' => Text.isdigit c && relative_tail s'
  | EmptyString => false
  end.

(** The absolute formats, in the order they are tried. *)
Definition formats : list string :=
  [ "%Y-%m-%d %H:%M"; "%Y-%m-%d %H:%M:%S"; "%d/%m/%Y %H:%M"; "%d-%m-%Y %H:%M" ].

(** The loop over [formats]: the first format that parses decides; a
    [ValueError] moves on to the next one. *)
Fixpoint try_formats (time_str : string) (formats : list string)
  : result (option Datetime.datetime) :=
  match formats with
  | [] => Ok None
  | fmt :: formats' =>
      match Strptime.strptime time_str fmt with
      | Ok r => Ok (Some r)
      | Raise ValueError => try_formats time_str formats'
      | Raise e => Raise e
      end
  end.

(** [now + timedelta(...)] with the [timedelta] built first. *)
Definition now_plus (now : Datetime.datetime) (delta : result Datetime.timedelta)
  : result Datetime.datetime :=
  Strptime.bind delta (Datetime.add now).

(** [parse_time(time_str)], with the reading of the clock, [now], as an
    argument. *)
Definition parse_time (now : Datetime.datetime) (time_str : string)
  : result (option Datetime.datetime) :=
  let time_str := Text.strip (Text.lower time_str) in
  if relative_re time_str then
    Strptime.bind (int (Text.init time_str)) (fun num =>
    let unit := Text.last time_str in
    if bool_decide (unit = Some "s"%char) then
      Strptime.bind (now_plus now (Datetime.timedelta_new 0 num 0 0 0))
        (fun r => Ok (Some r))
    else if bool_decide (unit = Some "m"%char) then
      Strptime.bind (now_plus now (Datetime.timedelta_new 0 0 0 num 0))
        (fun r => Ok (Some r))
    else if bool_decide (unit = Some "h"%char) then
      Strptime.bind (now_plus now (Datetime.timedelta_new 0 0 0 0 num))
        (fun r => Ok (Some r))
    else if bool_decide (unit = Some "d"%char) then
      Strptime.bind (now_plus now (Datetime.timedelta_new num 0 0 0 0))
        (fun r => Ok (Some r))
    else Ok None)
  else if Text.startswith "tomorrow" time_str then
    Strptime.bind
      (now_plus (Datetime.replace_time now 9 0 0 0)
         (Datetime.timedelta_new 1 0 0 0 0))
      (fun tomorrow =>
         if 8 <? Text.len time_str then
           let time_part := Text.strip (Text.drop 9 time_str) in
           match Strptime.strptime time_part "%I%p" with
           | Ok time_obj =>
               Ok (Some (Datetime.replace_hour_minute tomorrow
                           (Datetime.hour time_obj) (Datetime.minute time_obj)))
           | Raise _ =>
               match Strptime.strptime time_part "%H:%M" with
               | Ok time_obj =>
                   Ok (Some (Datetime.replace_hour_minute tomorrow
                               (Datetime.hour time_obj) (Datetime.minute time_obj)))
               | Raise _ => Ok (Some tomorrow)
               end
           end
         else Ok (Some tomorrow))
  else try_formats time_str formats.

(** ** The bot's data *)

(** An auto-response rule. *)
Record AutoResponse : Type := mk_AutoResponse {
  trigger : string;
  response : string;
  exact_match : bool;
  case_sensitive : bool;
  enabled : bool
}.

(** A reminder.  [recurring] and [chat_id] default to [None]. *)
Record Reminder : Type := mk_Reminder {
  user_id : Z;
  message : string;
  datetime : Datetime.datetime;
  recurring : option string;
  chat_id : option Z
}.

(** [a == b] on reminders: the equality a dataclass generates, field by
    field.  [in] and [list.remove] compare with it. *)
Definition datetime_eq (a b : Datetime.datetime) : bool :=
  (Datetime.ordinal a =? Datetime.ordinal b)
  && (Datetime.hour a =? Datetime.hour b)
  && (Datetime.minute a =? Datetime.minute b)
  && (Datetime.second a =? Datetime.second b)
  && (Datetime.microsecond a =? Datetime.microsecond b).

Definition option_eq {A : Type} (eq : A -> A -> bool) (a b : option A) : bool :=
  match a, b with
  | Some x, Some y => eq x y
  | None, None => true
  | _, _ => false
  end.

Definition Reminder_eq (a b : Reminder) : bool :=
  (user_id a =? user_id b)
  && String.eqb (message a) (message b)
  && datetime_eq (datetime a) (datetime b)
  && option_eq String.eqb (recurring a) (recurring b)
  && option_eq Z.eqb (chat_id a) (chat_id b).

(** [reminder in reminders] and [reminders.remove(reminder)]: the first
    element equal to [reminder] goes ([remove] is called only where one
    is present). *)
Definition Reminder_in (reminder : Reminder) (reminders : list Reminder) : bool :=
  existsb (Reminder_eq reminder) reminders.

Fixpoint Reminder_remove (reminder : Reminder) (reminders : list Reminder)
  : list Reminder :=
  match reminders with
  | [] => []
  | r :: reminders' =>
      if Reminder_eq r reminder then reminders'
      else r :: Reminder_remove reminder reminders'
  end.

(** The state of an [AutoResponderBot]: the rules of each user, in the order
    they were added, and the reminders. *)
Record AutoResponderBot : Type := mk_AutoResponderBot {
  auto_responses : gmap Z (list AutoResponse);
  reminders : list Reminder
}.

(** What the deployer customises: the admin ids listed in [_is_admin].  The
    source ships the list empty. *)
Record config : Type := mk_config { admin_ids : list Z }.

Definition shipped : config := {| admin_ids := [] |}.

(** The texts the bot sends.  Each constructor stands for the text quoted
    after it, with the values it carries filled in. *)
Inductive text : Type :=
  | Verbatim (s : string)
      (* the text [s] itself *)
  | PermissionDenied
      (* "You don't have permission to use this command." *)
  | AddResponseUsage
      (* "Please provide trigger and response separated by '|'" and the
         example of /addresponse *)
  | AddExactResponseUsage
      (* the same with the example of /addresponse_exact *)
  | SeparatorMissing
      (* "Please separate trigger and response with '|'" *)
  | BothRequired
      (* "Both trigger and response must be provided" *)
  | ResponseAdded (trigger response : string)
      (* "Auto-response added!" with trigger and response *)
  | ExactResponseAdded (trigger response : string)
      (* "Exact-match auto-response added!" with trigger and response *)
  | NoResponses
      (* "You don't have any auto-responses set up." *)
  | ResponseList (responses : list AutoResponse)
      (* "Your Auto-Responses:" and the numbered rules *)
  | DeleteResponseUsage
      (* "Please provide the response number to delete" *)
  | ToggleResponseUsage
      (* "Please provide the response number to toggle" *)
  | NumberInvalid
      (* "Please provide a valid number" *)
  | ResponseNumberInvalid
      (* "Invalid response number" *)
  | ResponseDeleted (trigger : string)
      (* "Deleted auto-response:" and the trigger *)
  | ResponseToggled (enabled : bool) (trigger : string)
      (* "Auto-response enabled:" or "Auto-response disabled:" and the
         trigger *)
  | RemindUsage
      (* "Usage: `/remind <time> <message>`" and the time examples *)
  | TimeFormatInvalid
      (* "Invalid time format. Please check the examples in /admin" *)
  | TimeNotInFuture
      (* "Reminder time must be in the future" *)
  | SchedulingUnavailable
      (* "Reminder scheduling is not available. Please restart the bot." *)
  | SchedulingError (e : exception)
      (* "Error scheduling reminder: " and str(e) *)
  | ReminderSet (time : Datetime.datetime) (message : string) (delay : Z)
      (* "Reminder set!" with time, message and delay *)
  | NoReminders
      (* "You don't have any reminders set up." *)
  | ReminderList (reminders : list Reminder)
      (* "Your Reminders:" and the numbered reminders *)
  | DeleteReminderUsage
      (* "Please provide the reminder number to delete" *)
  | ReminderNumberInvalid
      (* "Invalid reminder number" *)
  | ReminderDeleted (message : string)
      (* "Deleted reminder:" and the message *)
  | ReminderDue (message : string).
      (* "Reminder:" and the message *)

(** A job for the scheduler: the delay in microseconds, the data handed to
    [send_reminder], and the job's name ["reminder_<user>_<count>"]. *)
Record job : Type := mk_job {
  when : Z;
  data_reminder : Reminder;
  data_original_time : Datetime.datetime;
  name : Z * Z
}.

(** The calls a handler makes to its collaborators. *)
Inductive call : Type :=
  | reply_text (t : text)                         (* update.message.reply_text *)
  | send_message (chat_id : option Z) (t : text)  (* context.bot.send_message *)
  | save_data (self : AutoResponderBot)           (* self.save_data(), on this state *)
  | run_once (j : job).                           (* context.job_queue.run_once *)

(** What a handler leaves behind. *)
Record outcome : Type := mk_outcome {
  bot : AutoResponderBot;
  calls : list call;
  escaped : option exception
}.

(** An update: who sent it, in which chat, and the text of its message (if
    it has one). *)
Record update : Type := mk_update {
  effective_user : Z;
  effective_chat : Z;
  message_text : option string
}.

(** A job queue answers [run_once]: it takes the job or raises. *)
Definition JobQueue : Type := job -> result unit.

(** The chat gateway answers [send_message]: it delivers or raises. *)
Definition Gateway : Type := option Z -> text -> result unit.

(** ** The handlers *)

(** A handler that only replies. *)
Definition reply (self : AutoResponderBot) (t : text) : outcome :=
  {| bot := self; calls := [reply_text t]; escaped := None |}.

(** [user_id in admin_ids]. *)
Definition _is_admin (cfg : config) (user_id : Z) : bool :=
  existsb (Z.eqb user_id) (admin_ids cfg).

(** [self.auto_responses.get(user_id, [])]. *)
Definition responses_of (self : AutoResponderBot) (user_id : Z)
  : list AutoResponse :=
  default [] (auto_responses self !! user_id).

(** [self.auto_responses[user_id]] made if missing, then [append]. *)
Definition append_response (self : AutoResponderBot) (user_id : Z)
    (r : AutoResponse) : AutoResponderBot :=
  {| auto_responses :=
       <[user_id := responses_of self user_id ++ [r]]> (auto_responses self);
     reminders := reminders self |}.

(** The two add commands share everything but the usage text, the check for
    empty parts and the rule they build. *)
Definition add_response_command (cfg : config) (self : AutoResponderBot)
    (u : update) (args : list string) : outcome :=
  if negb (_is_admin cfg (effective_user u)) then reply self PermissionDenied
  else if bool_decide (args = []) then reply self AddResponseUsage
  else
    let text := Text.join " " args in
    if negb (Text.contains "|" text) then reply self SeparatorMissing
    else
      let '(trigger, response) := Text.split_once "|" text in
      let trigger := Text.strip trigger in
      let response := Text.strip response in
      if Text.is_empty trigger || Text.is_empty response
      then reply self BothRequired
      else
        let user_id := effective_user u in
        let auto_response := mk_AutoResponse trigger response false false true in
        let self := append_response self user_id auto_response in
        {| bot := self;
           calls := [save_data self; reply_text (ResponseAdded trigger response)];
           escaped := None |}.

Definition add_exact_response_command (cfg : config) (self : AutoResponderBot)
    (u : update) (args : list string) : outcome :=
  if negb (_is_admin cfg (effective_user u)) then reply self PermissionDenied
  else if bool_decide (args = []) then reply self AddExactResponseUsage
  else
    let text := Text.join " " args in
    if negb (Text.contains "|" text) then reply self SeparatorMissing
    else
      let '(trigger, response) := Text.split_once "|" text in
      let trigger := Text.strip trigger in
      let response := Text.strip response in
      let user_id := effective_user u in
      let auto_response := mk_AutoResponse trigger response true false true in
      let self := append_response self user_id auto_response in
      {| bot := self;
         calls := [save_data self;
                   reply_text (ExactResponseAdded trigger response)];
         escaped := None |}.

Definition list_responses_command (cfg : config) (self : AutoResponderBot)
    (u : update) : outcome :=
  if negb (_is_admin cfg (effective_user u)) then reply self PermissionDenied
  else
    let responses := responses_of self (effective_user u) in
    if bool_decide (responses = []) then reply self NoResponses
    else reply self (ResponseList responses).

(** [responses.pop(i)] and [responses[i].enabled = not responses[i].enabled]
    act on the list held in [self.auto_responses[user_id]]. *)
Definition set_responses (self : AutoResponderBot) (user_id : Z)
    (responses : list AutoResponse) : AutoResponderBot :=
  {| auto_responses := <[user_id := responses]> (auto_responses self);
     reminders := reminders self |}.

Definition toggle (r : AutoResponse) : AutoResponse :=
  mk_AutoResponse (trigger r) (response r) (exact_match r) (case_sensitive r)
    (negb (enabled r)).

(** An exception no handler expects, should an index be out of range. *)
Definition IndexError : exception := Error "list index out of range".

Definition failed (self : AutoResponderBot) (calls : list call) (e : exception)
  : outcome :=
  {| bot := self; calls := calls; escaped := Some e |}.

Definition delete_response_command (cfg : config) (self : AutoResponderBot)
    (u : update) (args : list string) : outcome :=
  if negb (_is_admin cfg (effective_user u)) then reply self PermissionDenied
  else
    match args with
    | [] => reply self DeleteResponseUsage
    | arg :: _ =>
        match int arg with
        | Raise ValueError => reply self NumberInvalid
        | Raise e => failed self [] e
        | Ok response_num =>
            let user_id := effective_user u in
            let responses := responses_of self user_id in
            if (response_num <? 1) || (Z.of_nat (length responses) <? response_num)
            then reply self ResponseNumberInvalid
            else
              let i := Z.to_nat (response_num - 1) in
              match responses !! i with
              | None => failed self [] IndexError
              | Some deleted_response =>
                  let self := set_responses self user_id (delete i responses) in
                  {| bot := self;
                     calls := [save_data self;
                               reply_text (ResponseDeleted (trigger deleted_response))];
                     escaped := None |}
              end
        end
    end.

Definition toggle_response_command (cfg : config) (self : AutoResponderBot)
    (u : update) (args : list string) : outcome :=
  if negb (_is_admin cfg (effective_user u)) then reply self PermissionDenied
  else
    match args with
    | [] => reply self ToggleResponseUsage
    | arg :: _ =>
        match int arg with
        | Raise ValueError => reply self NumberInvalid
        | Raise e => failed self [] e
        | Ok response_num =>
            let user_id := effective_user u in
            let responses := responses_of self user_id in
            if (response_num <? 1) || (Z.of_nat (length responses) <? response_num)
            then reply self ResponseNumberInvalid
            else
              let i := Z.to_nat (response_num - 1) in
              match responses !! i with
              | None => failed self [] IndexError
              | Some response =>
                  let response := toggle response in
                  let self := set_responses self user_id (<[i := response]> responses) in
                  {| bot := self;
                     calls := [save_data self;
                               reply_text (ResponseToggled (enabled response)
                                             (trigger response))];
                     escaped := None |}
              end
        end
    end.

(** [/remind].  The clock is read three times: by [parse_time] ([now1]), for
    the comparison with the parsed time ([now2]) and for the delay
    ([now3]). *)
Definition remind_command (cfg : config) (self : AutoResponderBot)
    (u : update) (args : list string) (job_queue : option JobQueue)
    (now1 now2 now3 : Datetime.datetime) : outcome :=
  if negb (_is_admin cfg (effective_user u)) then reply self PermissionDenied
  else
    match args with
    | time_str :: ((_ :: _) as rest) =>
        let message := Text.join " " rest in
        match parse_time now1 time_str with
        | Raise e => failed self [] e
        | Ok None => reply self TimeFormatInvalid
        | Ok (Some remind_time) =>
            if Datetime.leb remind_time now2 then reply self TimeNotInFuture
            else
              let delay := Datetime.diff_micros remind_time now3 in
              let reminder :=
                mk_Reminder (effective_user u) message remind_time None
                  (Some (effective_chat u)) in
              let self1 :=
                {| auto_responses := auto_responses self;
                   reminders := reminders self ++ [reminder] |} in
              match job_queue with
              | None =>
                  {| bot := self1;
                     calls := [save_data self1; reply_text SchedulingUnavailable];
                     escaped := None |}
              | Some queue =>
                  let j :=
                    mk_job delay reminder remind_time
                      (effective_user u, Z.of_nat (length (reminders self1))) in
                  match queue j with
                  | Ok _ =>
                      {| bot := self1;
                         calls := [save_data self1; run_once j;
                                   reply_text (ReminderSet remind_time message delay)];
                         escaped := None |}
                  | Raise e =>
                      let self2 :=
                        {| auto_responses := auto_responses self1;
                           reminders := Reminder_remove reminder (reminders self1) |} in
                      {| bot := self2;
                         calls := [save_data self1; run_once j;
                                   reply_text (SchedulingError e); save_data self2];
                         escaped := None |}
                  end
              end
        end
    | _ => reply self RemindUsage
    end.

(** [[r for r in self.reminders if r.user_id == user_id]]. *)
Definition user_reminders (self : AutoResponderBot) (caller : Z)
  : list Reminder :=
  List.filter (fun r => user_id r =? caller) (reminders self).

Definition reminders_command (cfg : config) (self : AutoResponderBot)
    (u : update) : outcome :=
  if negb (_is_admin cfg (effective_user u)) then reply self PermissionDenied
  else
    let mine := user_reminders self (effective_user u) in
    if bool_decide (mine = []) then reply self NoReminders
    else reply self (ReminderList mine).

Definition delete_reminder_command (cfg : config) (self : AutoResponderBot)
    (u : update) (args : list string) : outcome :=
  if negb (_is_admin cfg (effective_user u)) then reply self PermissionDenied
  else
    match args with
    | [] => reply self DeleteReminderUsage
    | arg :: _ =>
        match int arg with
        | Raise ValueError => reply self NumberInvalid
        | Raise e => failed self [] e
        | Ok reminder_num =>
            let mine := user_reminders self (effective_user u) in
            if (reminder_num <? 1) || (Z.of_nat (length mine) <? reminder_num)
            then reply self ReminderNumberInvalid
            else
              match mine !! Z.to_nat (reminder_num - 1) with
              | None => failed self [] IndexError
              | Some reminder_to_delete =>
                  let self :=
                    {| auto_responses := auto_responses self;
                       reminders :=
                         Reminder_remove reminder_to_delete (reminders self) |} in
                  {| bot := self;
                     calls := [save_data self;
                               reply_text (ReminderDeleted (message reminder_to_delete))];
                     escaped := None |}
              end
        end
    end.

(** [send_reminder], the job the scheduler runs: [j] is the job's data and
    [gateway] what [send_message] answers.  Whatever is raised inside is
    caught and logged. *)
Definition send_reminder (self : AutoResponderBot) (j : job) (gateway : Gateway)
  : outcome :=
  let reminder := data_reminder j in
  let sending := send_message (chat_id reminder) (ReminderDue (message reminder)) in
  match gateway (chat_id reminder) (ReminderDue (message reminder)) with
  | Raise _ => {| bot := self; calls := [sending]; escaped := None |}
  | Ok _ =>
      if Reminder_in reminder (reminders self) then
        let self :=
          {| auto_responses := auto_responses self;
             reminders := Reminder_remove reminder (reminders self) |} in
        {| bot := self; calls := [sending; save_data self]; escaped := None |}
      else {| bot := self; calls := [sending]; escaped := None |}
  end.

(** The test in the loop of [handle_message]: does the rule [response] match
    the incoming [message_text]? *)
Definition matches (response : AutoResponse) (message_text : string) : bool :=
  let trigger := trigger response in
  let '(trigger, message_text_check) :=
    if negb (case_sensitive response)
    then (Text.lower trigger, Text.lower message_text)
    else (trigger, message_text) in
  if exact_match response
  then String.eqb message_text_check trigger
  else Text.contains trigger message_text_check.

(** The loop of [handle_message]: the rule it replies with, after which it
    breaks; [None] when it runs to the end of the list. *)
Fixpoint first_match (responses : list AutoResponse) (message_text : string)
  : option AutoResponse :=
  match responses with
  | [] => None
  | response :: responses' =>
      if negb (enabled response) then first_match responses' message_text
      else if matches response message_text then Some response
      else first_match responses' message_text
  end.

Definition handle_message (self : AutoResponderBot) (u : update) : outcome :=
  match message_text u with
  | None => {| bot := self; calls := []; escaped := None |}
  | Some message_text =>
      if Text.is_empty message_text
      then {| bot := self; calls := []; escaped := None |}
      else
        match first_match (responses_of self (effective_user u)) message_text with
        | Some r => reply self (Verbatim (response r))
        | None => {| bot := self; calls := []; escaped := None |}
        end
  end.

(** ** Start-up *)

(** A job [setup_jobs] hands to the scheduler: the delay
    [reminder.datetime - datetime.now()] in microseconds, the data handed to
    [send_reminder], and the index [i] of the job's name
    ["startup_reminder_<i>"]. *)
Record startup_job : Type := mk_startup_job {
  startup_when : Z;
  startup_reminder : Reminder;
  startup_original_time : Datetime.datetime;
  startup_index : nat
}.

(** The scheduler at start-up answers [run_once]: it takes the job or
    raises. *)
Definition StartupQueue : Type := startup_job -> result unit.

(** The clock as [setup_jobs] reads it, twice for each reminder it looks at:
    for the comparison and for the delay. *)
Definition startup_clock : Type := nat -> Datetime.datetime * Datetime.datetime.

(** The loop of [setup_jobs] from index [i] on: the calls of [run_once] it
    makes.  A reminder whose time is not after the clock is skipped;
    whatever [run_once] raises is caught and logged, so the loop goes on
    either way. *)
Fixpoint setup_jobs_from (i : nat) (reminders : list Reminder)
    (clock : startup_clock) : list startup_job :=
  match reminders with
  | [] => []
  | reminder :: reminders' =>
      if negb (Datetime.leb (datetime reminder) (fst (clock i)))
      then mk_startup_job
             (Datetime.diff_micros (datetime reminder) (snd (clock i)))
             reminder (datetime reminder) i
           :: setup_jobs_from (S i) reminders' clock
      else setup_jobs_from (S i) reminders' clock
  end.

(** [setup_jobs(job_queue)]: without a job queue it returns at once. *)
Definition setup_jobs (self : AutoResponderBot)
    (job_queue : option StartupQueue) (clock : startup_clock)
  : list startup_job :=
  match job_queue with
  | None => []
  | Some _ => setup_jobs_from 0 (reminders self) clock
  end.

(** ** The application *)

(** What the application hands to the bot, as [run] registers it: a command
    with its update and arguments, a text message that is no command, or a
    job of the scheduler that fires.  The answers of the collaborators and
    the clock readings come with the event.  ([/start] and the buttons touch
    neither the rules nor the reminders and are left out.) *)
Inductive event : Type :=
  | on_addresponse (u : update) (args : list string)
  | on_addresponse_exact (u : update) (args : list string)
  | on_listresponses (u : update)
  | on_deleteresponse (u : update) (args : list string)
  | on_toggleresponse (u : update) (args : list string)
  | on_remind (u : update) (args : list string) (job_queue : option JobQueue)
      (now1 now2 now3 : Datetime.datetime)
  | on_reminders (u : update)
  | on_deletereminder (u : update) (args : list string)
  | on_text (u : update)
  | on_job (j : job) (gateway : Gateway).

(** The handler registered for an event. *)
Definition dispatch (cfg : config) (self : AutoResponderBot) (ev : event)
  : outcome :=
  match ev with
  | on_addresponse u args => add_response_command cfg self u args
  | on_addresponse_exact u args => add_exact_response_command cfg self u args
  | on_listresponses u => list_responses_command cfg self u
  | on_deleteresponse u args => delete_response_command cfg self u args
  | on_toggleresponse u args => toggle_response_command cfg self u args
  | on_remind u args job_queue now1 now2 now3 =>
      remind_command cfg self u args job_queue now1 now2 now3
  | on_reminders u => reminders_command cfg self u
  | on_deletereminder u args => delete_reminder_command cfg self u args
  | on_text u => handle_message self u
  | on_job j gateway => send_reminder self j gateway
  end.

(** The state after a sequence of events, each handled to completion before
    the next, and the calls made on the way. *)
Fixpoint run (cfg : config) (self : AutoResponderBot) (evs : list event)
  : AutoResponderBot :=
  match evs with
  | [] => self
  | ev :: evs' => run cfg (bot (dispatch cfg self ev)) evs'
  end.

Fixpoint trace (cfg : config) (self : AutoResponderBot) (evs : list event)
  : list call :=
  match evs with
  | [] => []
  | ev :: evs' =>
      calls (dispatch cfg self ev) ++ trace cfg (bot (dispatch cfg self ev)) evs'
  end.

(** ** Vocabulary of the properties *)

(** The text a rule compares: lower case unless the rule is case
    sensitive. *)
Definition normalized (r : AutoResponse) (s : string) : string :=
  if case_sensitive r then s else Text.lower s.

(** A rule the loop passes over: disabled, or not matching. *)
Definition skipped (incoming : string) (r : AutoResponse) : Prop :=
  enabled r = false \/ matches r incoming = false.

(** The two add commands on an admin's text with a separator: the parts
    around the first ['|'], trimmed. *)
Definition parts (args : list string) : string * string :=
  let '(trigger, response) := Text.split_once "|" (Text.join " " args) in
  (Text.strip trigger, Text.strip response).

(** The seconds in one unit of the relative shorthand. *)
Definition unit_seconds (u : ascii) : Z :=
  if Ascii.eqb u "s" then 1
  else if Ascii.eqb u "m" then 60
  else if Ascii.eqb u "h" then 3600
  else 86400.

(** The first microsecond after [datetime.max]. *)
Definition END_OF_TIME : Z := (Datetime._MAXORDINAL + 1) * 86400 * 1000000.

(** The integers from 0 up to [n - 1]. *)
Definition below (n : Z) : list Z := map Z.of_nat (seq 0 (Z.to_nat n)).

(** The time of day the "tomorrow" rule reads from [time_part]: the
    twelve-hour clock first, then [HH:MM], else nine o'clock. *)
Definition time_of_day (time_part : string) : Z * Z :=
  match Strptime.strptime time_part "%I%p" with
  | Ok t => (Datetime.hour t, Datetime.minute t)
  | Raise _ =>
      match Strptime.strptime time_part "%H:%M" with
      | Ok t => (Datetime.hour t, Datetime.minute t)
      | Raise _ => (9, 0)
      end
  end.

(** The checks run over every hour of the twelve-hour clock and every
    minute of the day. *)
Definition check_12h (h : Z) : bool :=
  bool_decide
    (time_of_day (Text.strip (Text.drop 1 (String " " (Text.str (h + 1) +:+ "am"))))
     = ((h + 1) mod 12, 0))
  && bool_decide
       (time_of_day (Text.strip (Text.drop 1 (String " " (Text.str (h + 1) +:+ "pm"))))
        = ((h + 1) mod 12 + 12, 0)).

Definition check_24h (h m : Z) : bool :=
  bool_decide
    (time_of_day (Text.strip (Text.drop 1
                    (String " " (Text.pad2 h +:+ ":" +:+ Text.pad2 m))))
     = (h, m)).

(** The loop over the formats, unrolled: the first format that parses
    decides, and absence is the result when none does. *)
Definition first_format (time_str : string) : option Datetime.datetime :=
  match Strptime.strptime time_str "%Y-%m-%d %H:%M" with
  | Ok r => Some r
  | Raise _ =>
      match Strptime.strptime time_str "%Y-%m-%d %H:%M:%S" with
      | Ok r => Some r
      | Raise _ =>
          match Strptime.strptime time_str "%d/%m/%Y %H:%M" with
          | Ok r => Some r
          | Raise _ =>
              match Strptime.strptime time_str "%d-%m-%Y %H:%M" with
              | Ok r => Some r
              | Raise _ => None
              end
          end
      end
  end.

(** The expression of an item, and the group of a directive. *)
Definition regex_of (it : Strptime.item) : Strptime.regex :=
  match it with Strptime.Group _ r => r | Strptime.Plain r => r end.

(** The group [TimeRE.pattern] writes for [%c]. *)
Definition dir (c : ascii) : Strptime.item :=
  Strptime.Group c (default Strptime.Digit (Strptime.directive c)).

(** A text cut into the tokens of a format's items, followed by [k]. *)
Fixpoint text_of (toks : list (Strptime.item * string)) (k : string) : string :=
  match toks with
  | [] => k
  | (_, tok) :: toks' => tok +:+ text_of toks' k
  end.

(** The groups such a text fills: each named group with its token. *)
Fixpoint found_of (toks : list (Strptime.item * string)) : Strptime.groupdict :=
  match toks with
  | [] => []
  | (Strptime.Group name _, tok) :: toks' => (name, tok) :: found_of toks'
  | (Strptime.Plain _, _) :: toks' => found_of toks'
  end.

(** [x] is the first element of [l]. *)
Definition leads {A : Type} (l : list A) (x : A) : Prop := exists tl, l = x :: tl.

(** Each token is the first match of its item where it stands. *)
Fixpoint heads (toks : list (Strptime.item * string)) (k : string) : Prop :=
  match toks with
  | [] => True
  | (it, tok) :: toks' =>
      leads (Strptime.rmatch (regex_of it) (tok +:+ text_of toks' k))
            (tok, text_of toks' k)
      /\ heads toks' k
  end.

(** Texts of exactly two, and of exactly four, decimal digits. *)
Definition two_digits (s : string) : bool :=
  match s with
  | String a (String b EmptyString) => Text.isdigit a && Text.isdigit b
  | _ => false
  end.

Definition four_digits (s : string) : bool :=
  match s with
  | String a (String b (String c (String d EmptyString))) =>
      Text.isdigit a && Text.isdigit b && Text.isdigit c && Text.isdigit d
  | _ => false
  end.

(** [int(s)] is [n]. *)
Definition int_is (s : string) (n : Z) : bool :=
  match int s with Ok v => v =? n | Raise _ => false end.

(** The first match of directive [c] on the two digits of [v] is the whole
    token, whatever follows. *)
Definition token_leads (c : ascii) (v : Z) : Prop :=
  forall k,
    leads (Strptime.rmatch (regex_of (dir c)) (Text.pad2 v +:+ k)) (Text.pad2 v, k).

(** The texts of the four absolute formats for given fields. *)
Definition clock_text (h mi : Z) : string :=
  Text.pad2 h +:+ ":" +:+ Text.pad2 mi.

(** [YYYY-MM-DD HH:MM], with seconds, [DD/MM/YYYY HH:MM] and
    [DD-MM-YYYY HH:MM]. *)
Definition iso_text (y m d h mi : Z) : string :=
  Text.pad4 y +:+ "-" +:+ Text.pad2 m +:+ "-" +:+ Text.pad2 d +:+ " "
  +:+ clock_text h mi.

Definition iso_seconds_text (y m d h mi s : Z) : string :=
  iso_text y m d h mi +:+ ":" +:+ Text.pad2 s.

Definition slash_text (y m d h mi : Z) : string :=
  Text.pad2 d +:+ "/" +:+ Text.pad2 m +:+ "/" +:+ Text.pad4 y +:+ " "
  +:+ clock_text h mi.

Definition dash_text (y m d h mi : Z) : string :=
  Text.pad2 d +:+ "-" +:+ Text.pad2 m +:+ "-" +:+ Text.pad4 y +:+ " "
  +:+ clock_text h mi.

(** Fields a text of these formats can show. *)
Definition shown (y m d h mi s : Z) : Prop :=
  0 <= y <= 9999 /\ 1 <= m <= 12 /\ 1 <= d <= 31
  /\ 0 <= h < 24 /\ 0 <= mi < 60 /\ 0 <= s < 60.

(** The tokens of the formats. *)
Definition clock_tokens (h mi : Z) : list (Strptime.item * string) :=
  [ (dir "H", Text.pad2 h); (Strptime.Plain (Strptime.Lit ":"), ":");
    (dir "M", Text.pad2 mi) ].

Definition iso_tokens (y m d h mi : Z) : list (Strptime.item * string) :=
  [ (dir "Y", Text.pad4 y); (Strptime.Plain (Strptime.Lit "-"), "-");
    (dir "m", Text.pad2 m); (Strptime.Plain (Strptime.Lit "-"), "-");
    (dir "d", Text.pad2 d); (Strptime.Plain Strptime.Spaces, " ") ]
  ++ clock_tokens h mi.

Definition iso_seconds_tokens (y m d h mi s : Z) : list (Strptime.item * string) :=
  iso_tokens y m d h mi
  ++ [ (Strptime.Plain (Strptime.Lit ":"), ":"); (dir "S", Text.pad2 s) ].

Definition day_first_tokens (sep : ascii) (y m d h mi : Z)
  : list (Strptime.item * string) :=
  [ (dir "d", Text.pad2 d); (Strptime.Plain (Strptime.Lit sep), String sep "");
    (dir "m", Text.pad2 m); (Strptime.Plain (Strptime.Lit sep), String sep "");
    (dir "Y", Text.pad4 y); (Strptime.Plain Strptime.Spaces, " ") ]
  ++ clock_tokens h mi.

(** After a day, the separator of the slash format does not match a dash. *)
Definition slash_fails_after_day (v : Z) : Prop :=
  forall k,
    Forall (fun '(_, s1) => Strptime.rmatch (Strptime.Lit "/") s1 = [])
      (Strptime.rmatch (regex_of (dir "d")) (Text.pad2 v +:+ "-" +:+ k)).

(** An update of user [user] carrying the text [t]. *)
Definition incoming (user chat : Z) (t : string) : update :=
  mk_update user chat (Some t).

(** The reply text of a rule. *)
Definition response_of (r : AutoResponse) : string := response r.

(** The reminder [/remind] builds. *)
Definition new_reminder (u : update) (rest : list string)
    (remind_time : Datetime.datetime) : Reminder :=
  mk_Reminder (effective_user u) (Text.join " " rest) remind_time None
    (Some (effective_chat u)).

(** The state with one more reminder at the end of the list. *)
Definition with_reminder (self : AutoResponderBot) (r : Reminder)
  : AutoResponderBot :=
  mk_AutoResponderBot (auto_responses self) (reminders self ++ [r]).

(** The job [/remind] hands to the scheduler: its name counts the reminders
    in the list, the new one included. *)
Definition new_job (self : AutoResponderBot) (u : update) (rest : list string)
    (remind_time now3 : Datetime.datetime) : job :=
  let r := new_reminder u rest remind_time in
  mk_job (Datetime.diff_micros remind_time now3) r remind_time
    (effective_user u, Z.of_nat (length (reminders (with_reminder self r)))).

(** No whitespace in a text: what a token of [context.args] is like. *)
Definition no_space (s : string) : bool :=
  Text.all (fun c => negb (Text.isspace c)) s.

(** Data for the examples: an admin list with user 7, who has two rules, and
    the reminders of users 7 and 8. *)
Definition example_cfg : config := mk_config [7].
Definition example_update : update := mk_update 7 100 None.
Definition example_now : Datetime.datetime := Datetime.mk_datetime 739245 12 0 0 0.
Definition example_rules : list AutoResponse :=
  [ mk_AutoResponse "hello" "hi there" false false true;
    mk_AutoResponse "bye" "see you" true false true ].
Definition example_reminders : list Reminder :=
  [ mk_Reminder 7 "tea" (Datetime.mk_datetime 739246 9 0 0 0) None (Some 100);
    mk_Reminder 8 "water" (Datetime.mk_datetime 739247 8 30 0 0) None (Some 200) ].
Definition example_bot : AutoResponderBot :=
  mk_AutoResponderBot {[ 7 := example_rules ]} example_reminders.
Definition accepting : JobQueue := fun _ => Ok tt.
Definition delivering : Gateway := fun _ _ => Ok tt.

(** The job [setup_jobs] makes for the reminder [r] at index [i]. *)
Definition startup_job_of (clock : startup_clock) (i : nat) (r : Reminder)
  : startup_job :=
  mk_startup_job (Datetime.diff_micros (datetime r) (snd (clock i))) r
    (datetime r) i.

(** The user a command comes from; a text message or a job is no command. *)
Definition commander (ev : event) : option Z :=
  match ev with
  | on_addresponse u _ | on_addresponse_exact u _ | on_listresponses u
  | on_deleteresponse u _ | on_toggleresponse u _ | on_remind u _ _ _ _ _
  | on_reminders u | on_deletereminder u _ => Some (effective_user u)
  | on_text _ | on_job _ _ => None
  end.

(** A state as the commands make it: no rule is case sensitive, and every
    reminder is one-off and has a chat. *)
Definition made_by_commands (self : AutoResponderBot) : Prop :=
  (forall v rules, auto_responses self !! v = Some rules ->
     Forall (fun r => case_sensitive r = false) rules)
  /\ Forall (fun r => recurring r = None /\ chat_id r <> None) (reminders self).

(** A clock that stands still at [now]. *)
Definition standing (now : Datetime.datetime) : startup_clock :=
  fun _ => (now, now).

(** * Properties *)

#[local] Arguments String.append _ _ : simpl nomatch.

(** ** Text *)

Section TextFacts.

Import Text.

Lemma append_empty_r (s : string) : s +:+ "" = s.
Proof. induction s as [|c s IH]; simpl; [done | by rewrite IH]. Qed.

Lemma append_assoc (a b c : string) : (a +:+ b) +:+ c = a +:+ (b +:+ c).
Proof. induction a as [|x a IH]; simpl; [done | by rewrite IH]. Qed.

(** [s.startswith(p)] holds exactly when [s] is [p] followed by some text. *)
Lemma startswith_spec (p s : string) :
  startswith p s = true <-> exists r, s = p +:+ r.
Proof.
  revert s. induction p as [|a p IH]; intros s; simpl.
  - split; [intros _; by exists s | done].
  - destruct s as [|b s].
    + split; [done | intros [r Hr]; discriminate].
    + rewrite andb_true_iff, Ascii.eqb_eq, IH. split.
      * intros [-> [r ->]]. by exists r.
      * intros [r Hr]. injection Hr as -> ->. split; [done | by exists r].
Qed.

(** [t in s] holds exactly when [t] occurs somewhere inside [s]. *)
Lemma contains_spec (t s : string) :
  contains t s = true <-> exists p r, s = p +:+ t +:+ r.
Proof.
  induction s as [|c s IH].
  - simpl. rewrite orb_false_r, startswith_spec. split.
    + intros [r Hr]. by exists "", r.
    + intros [p [r Hr]]. destruct p; [by exists r | discriminate].
  - cbn [contains]. rewrite orb_true_iff, startswith_spec, IH. split.
    + intros [[r Hr] | [p [r Hr]]].
      * by exists "", r.
      * exists (String c p), r. simpl. by rewrite Hr.
    + intros [p [r Hr]]. destruct p as [|x p].
      * left. by exists r.
      * right. simpl in Hr. injection Hr as -> ->. by exists p, r.
Qed.

End TextFacts.

(** ** The auto-response matcher *)

Section Matcher.

(** The test of the loop, in words: equality of the normalized texts for an
    exact rule, otherwise the normalized trigger occurs inside the normalized
    incoming text. *)
Lemma matches_spec (r : AutoResponse) (incoming : string) :
  matches r incoming = true <->
  if exact_match r
  then normalized r incoming = normalized r (trigger r)
  else exists p s,
      normalized r incoming = p +:+ normalized r (trigger r) +:+ s.
Proof.
  unfold matches, normalized.
  destruct (case_sensitive r), (exact_match r); simpl;
    first [apply String.eqb_eq | apply contains_spec].
Qed.

Lemma first_match_Some (responses : list AutoResponse) (incoming : string)
    (r : AutoResponse) :
  first_match responses incoming = Some r <->
  exists before after,
    responses = before ++ r :: after
    /\ Forall (skipped incoming) before
    /\ enabled r = true /\ matches r incoming = true.
Proof.
  induction responses as [|x l IH]; simpl.
  - split; [done | intros (before & after & H & _)].
    by destruct before.
  - destruct (enabled x) eqn:He; simpl.
    + destruct (matches x incoming) eqn:Hm.
      * split.
        -- intros [= <-]. exists [], l. by repeat split.
        -- intros (before & after & H & Hb & He' & Hm').
           destruct before as [|y before]; simpl in H; injection H as -> ->.
           ++ done.
           ++ apply Forall_cons in Hb as [[?|?] _]; congruence.
      * rewrite IH. split.
        -- intros (before & after & -> & Hb & He' & Hm').
           exists (x :: before), after. repeat split; try done.
           constructor; [by right | done].
        -- intros (before & after & H & Hb & He' & Hm').
           destruct before as [|y before]; simpl in H; injection H as -> ->.
           ++ congruence.
           ++ apply Forall_cons in Hb as [_ Hb]. by exists before, after.
    + rewrite IH. split.
      * intros (before & after & -> & Hb & He' & Hm').
        exists (x :: before), after. repeat split; try done.
        constructor; [by left | done].
      * intros (before & after & H & Hb & He' & Hm').
        destruct before as [|y before]; simpl in H; injection H as -> ->.
        -- congruence.
        -- apply Forall_cons in Hb as [_ Hb]. by exists before, after.
Qed.

Lemma first_match_None (responses : list AutoResponse) (incoming : string) :
  first_match responses incoming = None <-> Forall (skipped incoming) responses.
Proof.
  induction responses as [|x l IH]; simpl.
  - split; [constructor | done].
  - rewrite Forall_cons. unfold skipped at 1.
    destruct (enabled x); simpl.
    + destruct (matches x incoming).
      * split; [done | intros [[?|?] _]; done].
      * rewrite IH. split; [intros ?; split; [by right | done] | by intros [_ ?]].
    + rewrite IH. split; [intros ?; split; [by left | done] | by intros [_ ?]].
Qed.

End Matcher.

(** C1.  For every ordered list of rules and every incoming text, the loop of
    [handle_message] scans the rules in list order and replies with the first
    enabled rule that matches: both texts are compared in lower case unless
    the rule is case sensitive, by equality for an exact rule and by
    containment of the trigger otherwise; disabled rules are passed over;
    every rule before the chosen one is disabled or does not match; without
    an enabled matching rule nothing is replied; and at most one reply is
    produced. *)
Theorem handle_message_first_match
    (responses : list AutoResponse) (incoming : string) :
  (forall r, matches r incoming = true <->
     if exact_match r
     then normalized r incoming = normalized r (trigger r)
     else exists p s,
         normalized r incoming = p +:+ normalized r (trigger r) +:+ s)
  /\ (forall r, first_match responses incoming = Some r <->
        exists before after,
          responses = before ++ r :: after
          /\ Forall (skipped incoming) before
          /\ enabled r = true /\ matches r incoming = true)
  /\ (first_match responses incoming = None <->
        Forall (skipped incoming) responses)
  /\ (forall self u,
        responses_of self (effective_user u) = responses ->
        message_text u = Some incoming -> incoming <> "" ->
        handle_message self u =
          {| bot := self;
             calls := match first_match responses incoming with
                      | Some r => [reply_text (Verbatim (response r))]
                      | None => []
                      end;
             escaped := None |})
  /\ (forall self u, (length (calls (handle_message self u)) <= 1)%nat).
Proof.
  split; [intros r; apply matches_spec |].
  split; [intros r; apply first_match_Some |].
  split; [apply first_match_None |].
  split.
  - intros self u Hr Ht Hne. unfold handle_message. rewrite Ht, Hr.
    destruct incoming; [done | simpl].
    by destruct (first_match responses _).
  - intros self u. unfold handle_message.
    destruct (message_text u) as [t|]; simpl; [| lia].
    destruct (Text.is_empty t); simpl; [lia |].
    destruct (first_match _ _); simpl; lia.
Qed.

(** The matcher on the examples of the specification. *)
Example matches_substring :
  matches (mk_AutoResponse "hello" "hi" false false true) "well hello there" = true.
Proof. reflexivity. Qed.

Example matches_exact_ignoring_case :
  matches (mk_AutoResponse "Hello" "hi" true false true) "hello" = true.
Proof. reflexivity. Qed.

Example matches_exact_case_sensitive :
  matches (mk_AutoResponse "Hello" "hi" true true true) "hello" = false.
Proof. reflexivity. Qed.

Example first_of_two_matching_rules :
  first_match [mk_AutoResponse "hello" "one" false false true;
               mk_AutoResponse "hell" "two" false false true] "hello"
  = Some (mk_AutoResponse "hello" "one" false false true).
Proof. reflexivity. Qed.

Example disabled_rule_is_skipped :
  first_match [mk_AutoResponse "hello" "one" false false false;
               mk_AutoResponse "hell" "two" false false true] "hello"
  = Some (mk_AutoResponse "hell" "two" false false true)
  /\ first_match [mk_AutoResponse "hello" "one" false false false] "hello" = None.
Proof. split; reflexivity. Qed.

(** ** Reminders as values *)

Section ReminderFacts.

Lemma datetime_eq_spec (a b : Datetime.datetime) :
  datetime_eq a b = true <-> a = b.
Proof.
  unfold datetime_eq. rewrite !andb_true_iff, !Z.eqb_eq.
  destruct a, b; simpl. split.
  - intros [[[[-> ->] ->] ->] ->]. done.
  - intros [= -> -> -> -> ->]. done.
Qed.

Lemma option_eq_spec {A : Type} (eq : A -> A -> bool) (a b : option A) :
  (forall x y, eq x y = true <-> x = y) ->
  option_eq eq a b = true <-> a = b.
Proof.
  intros H. destruct a, b; simpl; try done.
  rewrite H. split; [by intros -> | by intros [= ->]].
Qed.

(** [==] on reminders is equality of all fields. *)
Lemma Reminder_eq_spec (a b : Reminder) : Reminder_eq a b = true <-> a = b.
Proof.
  unfold Reminder_eq.
  rewrite !andb_true_iff, Z.eqb_eq, String.eqb_eq, datetime_eq_spec,
    (option_eq_spec String.eqb), (option_eq_spec Z.eqb)
    by first [apply String.eqb_eq | apply Z.eqb_eq].
  destruct a, b; simpl. split.
  - intros [[[[-> ->] ->] ->] ->]. done.
  - intros [= -> -> -> -> ->]. done.
Qed.

Lemma Reminder_eq_refl (r : Reminder) : Reminder_eq r r = true.
Proof. by apply Reminder_eq_spec. Qed.

Lemma Reminder_in_spec (r : Reminder) (l : list Reminder) :
  Reminder_in r l = true <-> In r l.
Proof.
  unfold Reminder_in. rewrite existsb_exists. split.
  - intros [x [Hx He]]. apply Reminder_eq_spec in He. by subst.
  - intros H. exists r. split; [done | apply Reminder_eq_refl].
Qed.

Lemma Reminder_in_false (r : Reminder) (l : list Reminder) :
  Reminder_in r l = false <-> ~ In r l.
Proof.
  rewrite <- Reminder_in_spec. by destruct (Reminder_in r l).
Qed.

(** Removing a reminder that is not in the list changes nothing. *)
Lemma Reminder_remove_absent (r : Reminder) (l : list Reminder) :
  ~ In r l -> Reminder_remove r l = l.
Proof.
  induction l as [|x l IH]; simpl; [done |]. intros H.
  destruct (Reminder_eq x r) eqn:He.
  - apply Reminder_eq_spec in He. subst. destruct H. by left.
  - rewrite IH; [done | intros ?; apply H; by right].
Qed.

(** Appending a reminder and removing it again gives the list back when no
    equal reminder was in it. *)
Lemma Reminder_remove_appended (r : Reminder) (l : list Reminder) :
  ~ In r l -> Reminder_remove r (l ++ [r]) = l.
Proof.
  induction l as [|x l IH]; simpl; intros H.
  - by rewrite Reminder_eq_refl.
  - destruct (Reminder_eq x r) eqn:He.
    + apply Reminder_eq_spec in He. subst. destruct H. by left.
    + rewrite IH; [done | intros ?; apply H; by right].
Qed.

(** With an equal reminder already in the list, the earlier one is removed:
    the list keeps its elements but not, in general, their order. *)
Lemma Reminder_remove_appended_perm (r : Reminder) (l : list Reminder) :
  Permutation (Reminder_remove r (l ++ [r])) l.
Proof.
  induction l as [|x l IH]; simpl.
  - by rewrite Reminder_eq_refl.
  - destruct (Reminder_eq x r) eqn:He.
    + apply Reminder_eq_spec in He. subst.
      symmetry. apply Permutation_cons_append.
    + by constructor.
Qed.

End ReminderFacts.

(** ** Dates and times *)

Section DatetimeFacts.

Import Datetime.


(** Two [datetime]s at the same position on the time line are the same. *)
Lemma to_micros_inj (a b : datetime) :
  valid a -> valid b -> to_micros a = to_micros b -> a = b.
Proof.
  unfold valid, to_micros.
  destruct a as [oa ha ma sa ua], b as [ob hb mb sb ub]; simpl.
  intros (? & ? & ? & ? & ?) (? & ? & ? & ? & ?) Heq.
  assert (oa = ob) by lia. assert (ha = hb) by lia. assert (ma = mb) by lia.
  assert (sa = sb) by lia. assert (ua = ub) by lia. by subst.
Qed.

End DatetimeFacts.

(** ** The command handlers *)

Section Handlers.

(** C6.  A [/remind] request whose parsed time is not after the clock is
    rejected before anything changes: whatever the configuration, the caller
    and the scheduler, the bot's state (and with it the reminder list) is
    what it was, the only call made is one reply to the user, so nothing is
    saved and no job reaches the scheduler, and nothing is raised.  For an
    admin who gave a time and a message the reply is "Reminder time must be
    in the future". *)
Theorem remind_command_rejects_past
    (cfg : config) (self : AutoResponderBot) (u : update) (args : list string)
    (job_queue : option JobQueue) (now1 now2 now3 : Datetime.datetime)
    (time_str : string) (remind_time : Datetime.datetime) :
  args !! 0%nat = Some time_str ->
  parse_time now1 time_str = Ok (Some remind_time) ->
  Datetime.leb remind_time now2 = true ->
  let out := remind_command cfg self u args job_queue now1 now2 now3 in
  bot out = self
  /\ escaped out = None
  /\ (exists t, calls out = [reply_text t])
  /\ (forall c, In c (calls out) ->
        (forall s, c <> save_data s) /\ (forall j, c <> run_once j))
  /\ (_is_admin cfg (effective_user u) = true -> (2 <= length args)%nat ->
      calls out = [reply_text TimeNotInFuture]).
Proof.
  intros Hargs Hparse Hle out. subst out. unfold remind_command.
  assert (Honly : forall t c, In c [reply_text t] ->
            (forall s, c <> save_data s) /\ (forall j, c <> run_once j)).
  { intros t c [<- | []]. done. }
  destruct args as [|a args]; [done |]. simpl in Hargs. injection Hargs as ->.
  destruct (_is_admin cfg (effective_user u)); simpl.
  - destruct args as [|b args]; simpl.
    + split; [done |]. split; [done |]. split; [by eexists |].
      split; [apply Honly | lia].
    + rewrite Hparse, Hle. simpl.
      split; [done |]. split; [done |]. split; [by eexists |].
      split; [apply Honly | done].
  - split; [done |]. split; [done |]. split; [by eexists |].
    split; [apply Honly | done].
Qed.

Lemma remind_command_rejects_past_witness :
  let now := Datetime.mk_datetime 739245 12 0 0 0 in
  let self := mk_AutoResponderBot ∅ [] in
  let out :=
    remind_command (mk_config [7]) self (mk_update 7 100 None) ["0s"; "tea"]
      None now now now in
  bot out = self
  /\ escaped out = None
  /\ (exists t, calls out = [reply_text t])
  /\ (forall c, In c (calls out) ->
        (forall s, c <> save_data s) /\ (forall j, c <> run_once j))
  /\ (_is_admin (mk_config [7]) 7 = true -> (2 <= length ["0s"; "tea"])%nat ->
      calls out = [reply_text TimeNotInFuture]).
Proof.
  exact (remind_command_rejects_past (mk_config [7]) (mk_AutoResponderBot ∅ [])
           (mk_update 7 100 None) ["0s"; "tea"] None
           (Datetime.mk_datetime 739245 12 0 0 0)
           (Datetime.mk_datetime 739245 12 0 0 0)
           (Datetime.mk_datetime 739245 12 0 0 0)
           "0s" (Datetime.mk_datetime 739245 12 0 0 0)
           eq_refl eq_refl eq_refl).
Defined.

(** What [/remind] does when the scheduler refuses the job: the reminder was
    appended and saved, the user is told, the first reminder equal to the new
    one is removed and the list is saved again.  The list that results has
    the elements it had before the request; it is the list it was before the
    request when no equal reminder was in it. *)
Lemma remind_command_scheduling_failure
    (cfg : config) (self : AutoResponderBot) (u : update)
    (time_str : string) (rest : list string) (queue : JobQueue)
    (now1 now2 now3 remind_time : Datetime.datetime) (e : exception) :
  _is_admin cfg (effective_user u) = true ->
  rest <> [] ->
  parse_time now1 time_str = Ok (Some remind_time) ->
  Datetime.leb remind_time now2 = false ->
  let reminder :=
    mk_Reminder (effective_user u) (Text.join " " rest) remind_time None
      (Some (effective_chat u)) in
  let j :=
    mk_job (Datetime.diff_micros remind_time now3) reminder remind_time
      (effective_user u, Z.of_nat (length (reminders self ++ [reminder]))) in
  queue j = Raise e ->
  let out :=
    remind_command cfg self u (time_str :: rest) (Some queue) now1 now2 now3 in
  auto_responses (bot out) = auto_responses self
  /\ reminders (bot out) = Reminder_remove reminder (reminders self ++ [reminder])
  /\ Permutation (reminders (bot out)) (reminders self)
  /\ (~ In reminder (reminders self) -> bot out = self)
  /\ escaped out = None
  /\ calls out =
       [save_data (mk_AutoResponderBot (auto_responses self)
                     (reminders self ++ [reminder]));
        run_once j; reply_text (SchedulingError e); save_data (bot out)].
Proof.
  intros Hadmin Hrest Hparse Hle reminder j Hq out. subst out.
  unfold remind_command. rewrite Hadmin. simpl.
  destruct rest as [|b rest]; [done |].
  rewrite Hparse, Hle. cbv zeta. cbn [negb bot reminders auto_responses].
  fold reminder. fold j. rewrite Hq. cbn [bot reminders auto_responses escaped calls].
  split; [done |]. split; [done |].
  split; [apply Reminder_remove_appended_perm |].
  split; [| done].
  intros Hnew. rewrite Reminder_remove_appended by done. by destruct self.
Qed.

(** C7, at an input where the code departs from it.  An admin (id 7 added to
    the list in [_is_admin]) asks twice for a reminder "tomorrow", with
    messages "call mom" and "water"; both are scheduled.  The same day the
    admin asks for "tomorrow" "call mom" again and the scheduler raises.
    The user is told, but [list.remove] takes out the first reminder equal to
    the new one, which is the one added by the first request: the list that
    was [call mom; water] before the request is [water; call mom] after
    it. *)
Example remind_command_rollback_reorders :
  let cfg := mk_config [7] in
  let u := mk_update 7 100 None in
  let ok : JobQueue := fun _ => Ok tt in
  let failing : JobQueue := fun _ => Raise (Error "scheduler is down") in
  let t1 := Datetime.mk_datetime 739245 10 0 0 0 in
  let t2 := Datetime.mk_datetime 739245 11 30 0 0 in
  let t3 := Datetime.mk_datetime 739245 17 45 10 250000 in
  let nine := Datetime.mk_datetime 739246 9 0 0 0 in
  let call_mom := mk_Reminder 7 "call mom" nine None (Some 100) in
  let water := mk_Reminder 7 "water" nine None (Some 100) in
  let self0 := mk_AutoResponderBot ∅ [] in
  let self1 :=
    bot (remind_command cfg self0 u ["tomorrow"; "call"; "mom"] (Some ok) t1 t1 t1) in
  let self2 :=
    bot (remind_command cfg self1 u ["tomorrow"; "water"] (Some ok) t2 t2 t2) in
  let out :=
    remind_command cfg self2 u ["tomorrow"; "call"; "mom"] (Some failing) t3 t3 t3 in
  reminders self2 = [call_mom; water]
  /\ reminders (bot out) = [water; call_mom]
  /\ reminders (bot out) <> reminders self2
  /\ In (reply_text (SchedulingError (Error "scheduler is down"))) (calls out).
Proof.
  vm_compute. split; [done |]. split; [done |]. split; [done |].
  right. right. left. done.
Qed.

(** C8, as the code has it.  When the job of a reminder fires and the
    reminder is no longer in the list, [send_reminder] does not fail: it
    still calls [send_message] with the reminder's text for the reminder's
    chat, and that is its only call; whatever the gateway answers, nothing
    is raised, the bot's state (and with it the reminder list) is unchanged
    and nothing is saved. *)
Theorem send_reminder_after_removal
    (self : AutoResponderBot) (j : job) (gateway : Gateway) :
  Reminder_in (data_reminder j) (reminders self) = false ->
  send_reminder self j gateway =
    {| bot := self;
       calls := [send_message (chat_id (data_reminder j))
                   (ReminderDue (message (data_reminder j)))];
       escaped := None |}.
Proof.
  intros Hin. unfold send_reminder. rewrite Hin. by destruct (gateway _ _).
Qed.

Lemma send_reminder_after_removal_witness :
  let r := mk_Reminder 7 "tea" (Datetime.mk_datetime 739246 9 0 0 0) None (Some 100) in
  let j := mk_job 1000000 r (Datetime.mk_datetime 739246 9 0 0 0) (7, 1) in
  send_reminder (mk_AutoResponderBot ∅ []) j (fun _ _ => Ok tt) =
    {| bot := mk_AutoResponderBot ∅ [];
       calls := [send_message (Some 100) (ReminderDue "tea")];
       escaped := None |}.
Proof.
  exact (send_reminder_after_removal (mk_AutoResponderBot ∅ [])
           (mk_job 1000000
              (mk_Reminder 7 "tea" (Datetime.mk_datetime 739246 9 0 0 0) None
                 (Some 100))
              (Datetime.mk_datetime 739246 9 0 0 0) (7, 1))
           (fun _ _ => Ok tt) eq_refl).
Defined.

(** C8 as stated fails: a job whose reminder was deleted does send.  The
    reminder list is empty, the job of a deleted reminder fires, the gateway
    delivers: the calls made are not none. *)
Lemma send_reminder_after_removal_sends :
  let r := mk_Reminder 7 "tea" (Datetime.mk_datetime 739246 9 0 0 0) None (Some 100) in
  let j := mk_job 1000000 r (Datetime.mk_datetime 739246 9 0 0 0) (7, 1) in
  let self := mk_AutoResponderBot ∅ [] in
  Reminder_in r (reminders self) = false
  /\ calls (send_reminder self j (fun _ _ => Ok tt))
     = [send_message (Some 100) (ReminderDue "tea")]
  /\ calls (send_reminder self j (fun _ _ => Ok tt)) <> [].
Proof. vm_compute. split; [done |]. split; done. Qed.

(** [send_reminder] never lets an exception escape. *)
Lemma send_reminder_raises_nothing
    (self : AutoResponderBot) (j : job) (gateway : Gateway) :
  escaped (send_reminder self j gateway) = None.
Proof.
  unfold send_reminder. destruct (gateway _ _); [| done].
  by destruct (Reminder_in _ _).
Qed.

(** C9.  The list of admin ids in the source is empty, so [_is_admin] is
    false for every user id, and each of the eight restricted commands,
    for every caller, arguments, scheduler and clock, only replies with the
    permission-denied text: the rules and the reminders are unchanged,
    nothing is saved or scheduled, nothing is raised. *)
Theorem restricted_commands_denied (self : AutoResponderBot) (u : update) :
  (forall user_id, _is_admin shipped user_id = false)
  /\ (forall args,
        add_response_command shipped self u args = reply self PermissionDenied)
  /\ (forall args,
        add_exact_response_command shipped self u args
        = reply self PermissionDenied)
  /\ list_responses_command shipped self u = reply self PermissionDenied
  /\ (forall args,
        delete_response_command shipped self u args = reply self PermissionDenied)
  /\ (forall args,
        toggle_response_command shipped self u args = reply self PermissionDenied)
  /\ (forall args job_queue now1 now2 now3,
        remind_command shipped self u args job_queue now1 now2 now3
        = reply self PermissionDenied)
  /\ reminders_command shipped self u = reply self PermissionDenied
  /\ (forall args,
        delete_reminder_command shipped self u args = reply self PermissionDenied)
  /\ bot (reply self PermissionDenied) = self
  /\ calls (reply self PermissionDenied) = [reply_text PermissionDenied]
  /\ escaped (reply self PermissionDenied) = None.
Proof. repeat split. Qed.

(** C10, for a caller the admin check lets through.  Given arguments whose
    text contains ['|'] and whose trimmed trigger or trimmed response is
    empty, [/addresponse_exact] appends the exact-match rule with these parts
    at the end of the caller's rule list, leaves every other user's rules and
    the reminders alone, saves the new state and reports success, whereas
    [/addresponse] on the same arguments replies that both parts are needed
    and changes and saves nothing. *)
Theorem add_commands_differ_on_empty_parts
    (cfg : config) (self : AutoResponderBot) (u : update) (args : list string)
    (trigger response : string) :
  _is_admin cfg (effective_user u) = true ->
  Text.contains "|" (Text.join " " args) = true ->
  parts args = (trigger, response) ->
  trigger = "" \/ response = "" ->
  let rule := mk_AutoResponse trigger response true false true in
  let exact := add_exact_response_command cfg self u args in
  auto_responses (bot exact) !! effective_user u
    = Some (responses_of self (effective_user u) ++ [rule])
  /\ (forall other, other <> effective_user u ->
        auto_responses (bot exact) !! other = auto_responses self !! other)
  /\ reminders (bot exact) = reminders self
  /\ calls exact
     = [save_data (bot exact); reply_text (ExactResponseAdded trigger response)]
  /\ escaped exact = None
  /\ add_response_command cfg self u args = reply self BothRequired.
Proof.
  intros Hadmin Hsep Hparts Hempty rule exact. subst exact rule.
  unfold add_exact_response_command, add_response_command, parts in *.
  rewrite Hadmin, Hsep. simpl.
  assert (Hargs : bool_decide (args = []) = false).
  { destruct args; [by vm_compute in Hsep | done]. }
  rewrite Hargs.
  destruct (Text.split_once "|" (Text.join " " args)) as [a b].
  injection Hparts as -> ->. simpl.
  split; [apply lookup_insert_eq |].
  split; [intros other Hne; by apply lookup_insert_ne |].
  split; [done |]. split; [done |]. split; [done |].
  by destruct Hempty as [-> | ->]; [| rewrite orb_true_r].
Qed.

Lemma add_commands_differ_on_empty_parts_witness :
  let cfg := mk_config [7] in
  let self := mk_AutoResponderBot ∅ [] in
  let u := mk_update 7 100 None in
  let rule := mk_AutoResponse "hello" "" true false true in
  let exact := add_exact_response_command cfg self u ["hello"; "|"] in
  auto_responses (bot exact) !! 7 = Some (responses_of self 7 ++ [rule])
  /\ (forall other, other <> 7 ->
        auto_responses (bot exact) !! other = auto_responses self !! other)
  /\ reminders (bot exact) = reminders self
  /\ calls exact
     = [save_data (bot exact); reply_text (ExactResponseAdded "hello" "")]
  /\ escaped exact = None
  /\ add_response_command cfg self u ["hello"; "|"] = reply self BothRequired.
Proof.
  exact (add_commands_differ_on_empty_parts (mk_config [7])
           (mk_AutoResponderBot ∅ []) (mk_update 7 100 None) ["hello"; "|"]
           "hello" "" eq_refl eq_refl eq_refl (or_intror eq_refl)).
Defined.

(** C10 as stated fails on the source as shipped: with the empty admin list
    [/addresponse_exact] appends nothing, whoever calls it. *)
Lemma add_exact_response_shipped_appends_nothing :
  let self := mk_AutoResponderBot ∅ [] in
  let out :=
    add_exact_response_command shipped self (mk_update 7 100 None) ["hello"; "|"] in
  Text.contains "|" (Text.join " " ["hello"; "|"]) = true
  /\ parts ["hello"; "|"] = ("hello", "")
  /\ out = reply self PermissionDenied
  /\ auto_responses (bot out) !! 7 = None.
Proof. repeat split. Qed.

End Handlers.

(** ** Numerals *)

Section Numerals.
Import Text.

Lemma all_append (p : ascii -> bool) (a b : string) :
  all p (a +:+ b) = all p a && all p b.
Proof. induction a as [|c a IH]; simpl; [done | by rewrite IH, andb_assoc]. Qed.

Lemma digit_chr (d : Z) :
  0 <= d < 10 -> isdigit (chr (48 + d)) = true /\ digit_value (chr (48 + d)) = d.
Proof.
  intros H.
  assert (d = 0 \/ d = 1 \/ d = 2 \/ d = 3 \/ d = 4 \/ d = 5 \/ d = 6 \/ d = 7
          \/ d = 8 \/ d = 9) as Hd by lia.
  repeat destruct Hd as [-> | Hd]; try subst d; done.
Qed.

Lemma int_digits_from_snoc (acc : Z) (s : string) (c : ascii) :
  int_digits_from acc (s +:+ String c "")
  = 10 * int_digits_from acc s + digit_value c.
Proof. revert acc. induction s as [|x s IH]; intros acc; simpl; [done | apply IH]. Qed.

(** The digits of [n], given fuel for them: a numeral of [n]. *)
Lemma str_digits_spec (fuel : nat) (n : Z) :
  0 <= n < 10 ^ (Z.of_nat fuel + 1) ->
  all isdigit (str_digits fuel n) = true
  /\ str_digits fuel n <> ""
  /\ int_digits (str_digits fuel n) = n.
Proof.
  revert n. induction fuel as [|fuel IH]; intros n Hn.
  - change (10 ^ (Z.of_nat 0 + 1)) with 10 in Hn. simpl.
    rewrite Z.mod_small by lia.
    destruct (digit_chr n) as [Hd Hv]; [lia |].
    unfold int_digits. simpl. rewrite Hd, Hv. done.
  - simpl str_digits. destruct (Z.ltb_spec n 10).
    + destruct (digit_chr n) as [Hd Hv]; [lia |].
      unfold int_digits. simpl. rewrite Hd, Hv. done.
    + destruct (IH (n / 10)) as (Ha & Hne & Hi).
      { split; [apply Z.div_pos; lia |].
        apply Z.div_lt_upper_bound; [lia |].
        replace (Z.of_nat (S fuel) + 1) with (Z.succ (Z.of_nat fuel + 1)) in Hn by lia.
        rewrite Z.pow_succ_r in Hn by lia. lia. }
      destruct (digit_chr (n mod 10)) as [Hd Hv]; [apply Z.mod_pos_bound; lia |].
      rewrite all_append, Ha. simpl. rewrite Hd. split; [done |]. split.
      * by destruct (str_digits fuel (n / 10)).
      * unfold int_digits in *. rewrite int_digits_from_snoc, Hi, Hv.
        symmetry. rewrite Z.add_comm. rewrite Z.mul_comm. 
        pose proof (Z.div_mod n 10). lia.
Qed.

Lemma str_spec (n : Z) :
  0 <= n ->
  all isdigit (str n) = true /\ str n <> "" /\ int_digits (str n) = n.
Proof.
  intros Hn. apply str_digits_spec. split; [done |].
  rewrite Z2Nat.id by apply Z.log2_nonneg.
  destruct (Z.eq_dec n 0) as [-> | Hne]; [done |].
  apply Z.lt_le_trans with (2 ^ (Z.log2 n + 1)).
  - replace (Z.log2 n + 1) with (Z.succ (Z.log2 n)) by lia.
    apply Z.log2_spec. lia.
  - apply Z.pow_le_mono_l. pose proof (Z.log2_nonneg n). lia.
Qed.

End Numerals.

(** ** Texts the parser meets *)

Section Parsing.
Import Text.

Lemma isdigit_facts (c : ascii) :
  isdigit c = true ->
  isspace c = false /\ is_unit c = false /\ Ascii.eqb c "-" = false
  /\ Ascii.eqb c "+" = false /\ Ascii.eqb c "_" = false /\ lower_char c = c.
Proof. destruct c as [[] [] [] [] [] [] [] []]; vm_compute; done. Qed.

Lemma is_unit_facts (c : ascii) :
  is_unit c = true ->
  isdigit c = false /\ isspace c = false /\ lower_char c = c
  /\ (c = "s" \/ c = "m" \/ c = "h" \/ c = "d")%char.
Proof.
  destruct c as [[] [] [] [] [] [] [] []]; vm_compute; try done; intros _.
  all: repeat split; tauto.
Qed.

Lemma rstrip_id (s : string) :
  all (fun c => negb (isspace c)) s = true -> rstrip s = s.
Proof.
  induction s as [|c s IH]; simpl; [done |].
  intros [Hc Hs]%andb_true_iff. rewrite IH by done.
  destruct s; [| done]. by destruct (isspace c).
Qed.

Lemma strip_id (s : string) :
  all (fun c => negb (isspace c)) s = true -> strip s = s.
Proof.
  intros H. unfold strip.
  assert (lstrip s = s) as ->; [| by apply rstrip_id].
  destruct s as [|c s]; simpl in *; [done |].
  apply andb_true_iff in H as [Hc _]. by destruct (isspace c).
Qed.

Lemma all_weaken (p q : ascii -> bool) (s : string) :
  (forall c, p c = true -> q c = true) -> all p s = true -> all q s = true.
Proof.
  intros Hpq. induction s as [|c s IH]; simpl; [done |].
  intros [Hc Hs]%andb_true_iff. by rewrite Hpq, IH.
Qed.

Lemma int_body_digits (after_digit : bool) (acc : Z) (s : string) :
  all isdigit s = true -> s <> "" \/ after_digit = true ->
  int_body after_digit acc s = Some (int_digits_from acc s).
Proof.
  revert after_digit acc. induction s as [|c s IH]; intros b acc Hall Hne; simpl.
  - destruct Hne as [? | ->]; done.
  - simpl in Hall. apply andb_true_iff in Hall as [Hc Hs]. rewrite Hc.
    apply IH; [done | by right].
Qed.

(** [int] on a numeral is its value. *)
Lemma int_digits_spec (s : string) :
  all isdigit s = true -> s <> "" -> int s = Ok (int_digits s).
Proof.
  intros Hall Hne. unfold int.
  rewrite strip_id.
  2:{ eapply all_weaken; [| exact Hall]. intros c Hc.
      by destruct (isdigit_facts c Hc) as (-> & _). }
  destruct s as [|c s]; [done |].
  assert (Hc : isdigit c = true) by (simpl in Hall; by apply andb_true_iff in Hall as [? _]).
  destruct (isdigit_facts c Hc) as (_ & _ & -> & -> & _).
  rewrite int_body_digits; [| done | by left].
  unfold int_digits. f_equal. lia.
Qed.

Lemma int_str (n : Z) : 0 <= n -> int (str n) = Ok n.
Proof.
  intros Hn. destruct (str_spec n Hn) as (Ha & Hne & Hv).
  by rewrite int_digits_spec, Hv.
Qed.

Lemma init_append_char (s : string) (c : ascii) : init (s +:+ String c "") = s.
Proof.
  induction s as [|x s IH]; simpl; [done |]. rewrite IH.
  by destruct s.
Qed.

Lemma last_append_char (s : string) (c : ascii) : last (s +:+ String c "") = Some c.
Proof.
  induction s as [|x s IH]; simpl; [done |]. rewrite IH.
  by destruct s.
Qed.

Lemma relative_tail_digits (s : string) (u : ascii) :
  all isdigit s = true -> is_unit u = true ->
  relative_tail (s +:+ String u "") = true.
Proof.
  intros Hall Hu. induction s as [|c s IH]; simpl.
  - destruct (is_unit_facts u Hu) as (-> & _). by rewrite Hu.
  - simpl in Hall. apply andb_true_iff in Hall as [-> Hs]. by apply IH.
Qed.

Lemma relative_re_digits (s : string) (u : ascii) :
  all isdigit s = true -> s <> "" -> is_unit u = true ->
  relative_re (s +:+ String u "") = true.
Proof.
  intros Hall Hne Hu. destruct s as [|c s]; [done |]. simpl in *.
  apply andb_true_iff in Hall as [-> Hs]. by apply relative_tail_digits.
Qed.

End Parsing.

(** ** The time-expression parser: relative shorthand *)

Section Relative.
Import Datetime.

#[local] Ltac Zify.zify_post_hook ::= Z.to_euclidean_division_equations.

Lemma add_spec (now : datetime) (d s m h : Z) :
  valid now ->
  let total := d * 86400 + s + m * 60 + h * 3600 in
  0 <= total ->
  to_micros now + total * 1000000 < END_OF_TIME ->
  exists r, now_plus now (timedelta_new d s 0 m h) = Ok r
            /\ valid r /\ to_micros r = to_micros now + total * 1000000.
Proof.
  intros Hv total Hnn Hmax.
  destruct now as [o hh mm ss us].
  unfold valid, to_micros, END_OF_TIME, _MAXORDINAL in *. simpl in *.
  destruct Hv as (Ho & Hh & Hm & Hs & Hu).
  unfold now_plus, timedelta_new.
  replace (0 / 1000000) with 0 by done. replace (0 mod 1000000) with 0 by done.
  rewrite Z.add_0_r.
  assert (Htd : (Z.abs (d + (s + m * 60 + h * 3600) / 86400) <=? 999999999) = true).
  { apply Z.leb_le. subst total. lia. }
  rewrite Htd. simpl Strptime.bind.
  unfold add. simpl ordinal; simpl hour; simpl minute; simpl second; simpl microsecond.
  unfold timedelta_new at 1.
  assert (H1 : (Z.abs (o + (ss + mm * 60 + hh * 3600 + us / 1000000) / 86400)
                <=? 999999999) = true).
  { apply Z.leb_le. lia. }
  rewrite H1. unfold timedelta_add, timedelta_new.
  simpl days; simpl seconds; simpl microseconds.
  match goal with
  | |- context [Z.abs ?x <=? 999999999] =>
      assert (H2 : (Z.abs x <=? 999999999) = true)
        by (apply Z.leb_le; subst total; lia)
  end.
  rewrite H2. simpl days; simpl seconds; simpl microseconds.
  unfold _MAXORDINAL.
  match goal with
  | |- context [(0 <? ?x) && (?x <=? 3652059)] =>
      assert (H3 : (0 <? x) && (x <=? 3652059) = true)
        by (apply andb_true_iff; split; [apply Z.ltb_lt | apply Z.leb_le];
            subst total; lia)
  end.
  rewrite H3.
  eexists. split; [reflexivity |]. simpl. subst total. split; [| lia].
  repeat split; lia.
Qed.

(** C2, within the range of [datetime].  For every [n >= 0] and unit [u]
    among s, m, h, d, and every input that lower-cased and trimmed is the
    decimal numeral of [n] followed by [u]: when [now] plus [n] units is
    not past [datetime.max], [parse_time] returns the [datetime] that lies
    [n] seconds, minutes, hours or days after [now]. *)
Theorem parse_time_relative
    (now : datetime) (raw : string) (n : Z) (u : ascii) :
  valid now -> 0 <= n -> is_unit u = true ->
  Text.strip (Text.lower raw) = Text.str n +:+ String u "" ->
  to_micros now + n * unit_seconds u * 1000000 < END_OF_TIME ->
  exists r,
    parse_time now raw = Ok (Some r)
    /\ valid r
    /\ to_micros r = to_micros now + n * unit_seconds u * 1000000.
Proof.
  intros Hv Hn Hu Hraw Hmax. unfold parse_time. rewrite Hraw.
  destruct (str_spec n Hn) as (Hall & Hne & _).
  rewrite relative_re_digits, init_append_char, int_str, last_append_char by done.
  simpl Strptime.bind.
  destruct (is_unit_facts u Hu) as (_ & _ & _ & [-> | [-> | [-> | ->]]]).
  - change (unit_seconds "s") with 1 in *.
    destruct (add_spec now 0 n 0 0 Hv) as (r & -> & Hr); [lia | lia |].
    exists r. split; [done |]. destruct Hr as [? ->]. split; [done | lia].
  - change (unit_seconds "m") with 60 in *.
    destruct (add_spec now 0 0 n 0 Hv) as (r & -> & Hr); [lia | lia |].
    exists r. split; [done |]. destruct Hr as [? ->]. split; [done | lia].
  - change (unit_seconds "h") with 3600 in *.
    destruct (add_spec now 0 0 0 n Hv) as (r & -> & Hr); [lia | lia |].
    exists r. split; [done |]. destruct Hr as [? ->]. split; [done | lia].
  - change (unit_seconds "d") with 86400 in *.
    destruct (add_spec now n 0 0 0 Hv) as (r & -> & Hr); [lia | lia |].
    exists r. split; [done |]. destruct Hr as [? ->]. split; [done | lia].
Qed.

Lemma parse_time_relative_witness :
  exists r,
    parse_time (mk_datetime 739245 23 59 58 123456) " 10S " = Ok (Some r)
    /\ valid r
    /\ to_micros r
       = to_micros (mk_datetime 739245 23 59 58 123456) + 10 * unit_seconds "s" * 1000000.
Proof.
  apply (parse_time_relative (mk_datetime 739245 23 59 58 123456) " 10S " 10 "s").
  - unfold valid, _MAXORDINAL; simpl; lia.
  - lia.
  - reflexivity.
  - reflexivity.
  - vm_compute. reflexivity.
Defined.

(** The examples of the specification, at one reading of the clock. *)
Example parse_time_10s :
  parse_time (mk_datetime 739245 23 59 58 123456) "10s"
  = Ok (Some (mk_datetime 739246 0 0 8 123456)).
Proof. reflexivity. Qed.

Example parse_time_3d :
  parse_time (mk_datetime 739245 23 59 58 123456) "3d"
  = Ok (Some (mk_datetime 739248 23 59 58 123456)).
Proof. reflexivity. Qed.

Example parse_time_2h :
  parse_time (mk_datetime 739245 23 59 58 123456) "2h"
  = Ok (Some (mk_datetime 739246 1 59 58 123456)).
Proof. reflexivity. Qed.

(** C2 as stated fails for large [n]: on 25 December 2024 the input
    ["3000000d"] names a day after year 9999, and [parse_time] raises
    [OverflowError] instead of returning a time. *)
Lemma parse_time_relative_out_of_range :
  parse_time (mk_datetime 739245 12 0 0 0) "3000000d" = Raise OverflowError
  /\ (forall r, parse_time (mk_datetime 739245 12 0 0 0) "3000000d"
                <> Ok (Some r)).
Proof. split; [reflexivity | intros r; vm_compute; discriminate]. Qed.

(** C5, at an input where the code departs from it.  The relative rule has
    no handler around its arithmetic: a count of days beyond what a
    [timedelta] holds makes [parse_time] raise [OverflowError], whatever the
    clock reads, where the claim has it never raise. *)
Example parse_time_raises (now : datetime) :
  parse_time now "1000000000d" = Raise OverflowError.
Proof. reflexivity. Qed.

End Relative.

(** ** The time-expression parser: tomorrow *)

Section Tomorrow.
Import Datetime.

Lemma In_below (n x : Z) : 0 <= x < n -> In x (below n).
Proof.
  intros H. unfold below. apply in_map_iff. exists (Z.to_nat x).
  split; [lia |]. apply in_seq. lia.
Qed.

Lemma time_of_day_12h (h : Z) :
  1 <= h <= 12 ->
  time_of_day (Text.strip (Text.drop 1 (String " " (Text.str h +:+ "am"))))
  = (h mod 12, 0)
  /\ time_of_day (Text.strip (Text.drop 1 (String " " (Text.str h +:+ "pm"))))
     = (h mod 12 + 12, 0).
Proof.
  intros H.
  assert (Hall : forallb check_12h (below 12) = true) by (vm_compute; reflexivity).
  rewrite forallb_forall in Hall. specialize (Hall (h - 1)).
  unfold check_12h in Hall. replace (h - 1 + 1) with h in Hall by lia.
  rewrite andb_true_iff, !bool_decide_eq_true in Hall.
  apply Hall, In_below. lia.
Qed.

Lemma time_of_day_24h (h m : Z) :
  0 <= h < 24 -> 0 <= m < 60 ->
  time_of_day (Text.strip (Text.drop 1
                 (String " " (Text.pad2 h +:+ ":" +:+ Text.pad2 m))))
  = (h, m).
Proof.
  intros Hh Hm.
  assert (Hall : forallb (fun h => forallb (check_24h h) (below 60)) (below 24) = true)
    by (vm_compute; reflexivity).
  rewrite forallb_forall in Hall. specialize (Hall h (In_below 24 h Hh)).
  rewrite forallb_forall in Hall. specialize (Hall m (In_below 60 m Hm)).
  by apply bool_decide_eq_true in Hall.
Qed.

Lemma tomorrow_at_nine (now : datetime) :
  valid now -> ordinal now < _MAXORDINAL ->
  now_plus (replace_time now 9 0 0 0) (timedelta_new 1 0 0 0 0)
  = Ok (mk_datetime (ordinal now + 1) 9 0 0 0).
Proof.
  intros Hv Hlast.
  assert (Hv9 : valid (replace_time now 9 0 0 0)).
  { unfold valid in *. simpl. lia. }
  destruct (add_spec (replace_time now 9 0 0 0) 1 0 0 0 Hv9) as (r & -> & Hr & Ht).
  - lia.
  - unfold to_micros, END_OF_TIME. simpl. unfold valid in Hv. lia.
  - f_equal. apply to_micros_inj; [done | |].
    + unfold valid in *. simpl. lia.
    + rewrite Ht. unfold to_micros. simpl. lia.
Qed.

(** C3.  For an input that lower-cased and trimmed is "tomorrow" followed by
    [rest], and a clock whose next calendar day exists: [parse_time] returns
    the next calendar day.  With nothing after "tomorrow" the time is
    09:00:00 with seconds and microseconds zero.  Otherwise the text from
    position 9 on, trimmed, is read on the twelve-hour clock ("9am"), failing
    that as [HH:MM], and gives the hour and the minute; when both readings
    fail the time stays 09:00.  So "tomorrow <h>am" and "tomorrow <h>pm" give
    the hour on the twelve-hour clock, and "tomorrow HH:MM" gives that hour
    and minute: "tomorrow 9am" is 09:00 and "tomorrow 14:30" is 14:30 of the
    next day. *)
Theorem parse_time_tomorrow (now : datetime) (raw rest : string) :
  valid now -> ordinal now < _MAXORDINAL ->
  Text.strip (Text.lower raw) = "tomorrow" +:+ rest ->
  let next_day h m := mk_datetime (ordinal now + 1) h m 0 0 in
  (rest = "" -> parse_time now raw = Ok (Some (next_day 9 0)))
  /\ (rest <> "" ->
      let time_part := Text.strip (Text.drop 1 rest) in
      parse_time now raw =
        Ok (Some
              match Strptime.strptime time_part "%I%p" with
              | Ok t => next_day (hour t) (minute t)
              | Raise _ =>
                  match Strptime.strptime time_part "%H:%M" with
                  | Ok t => next_day (hour t) (minute t)
                  | Raise _ => next_day 9 0
                  end
              end))
  /\ (forall h, 1 <= h <= 12 ->
        (rest = String " " (Text.str h +:+ "am") ->
         parse_time now raw = Ok (Some (next_day (h mod 12) 0)))
        /\ (rest = String " " (Text.str h +:+ "pm") ->
            parse_time now raw = Ok (Some (next_day (h mod 12 + 12) 0))))
  /\ (forall h m, 0 <= h < 24 -> 0 <= m < 60 ->
        rest = String " " (Text.pad2 h +:+ ":" +:+ Text.pad2 m) ->
        parse_time now raw = Ok (Some (next_day h m))).
Proof.
  intros Hv Hlast Hraw next_day.
  assert (Hgen : parse_time now raw =
            Ok (Some (if Text.is_empty rest then next_day 9 0
                      else let '(h, m) := time_of_day (Text.strip (Text.drop 1 rest)) in
                           next_day h m))).
  { unfold parse_time. rewrite Hraw.
    change (relative_re ("tomorrow" +:+ rest)) with false.
    change (Text.startswith "tomorrow" ("tomorrow" +:+ rest)) with true.
    cbv iota. rewrite tomorrow_at_nine by done. simpl Strptime.bind.
    change (Text.drop 9 ("tomorrow" +:+ rest)) with (Text.drop 1 rest).
    destruct rest as [|c rest]; [reflexivity |].
    match goal with
    | |- context [8 <? Text.len ?s] =>
        assert (Hlen : (8 <? Text.len s) = true)
          by (apply Z.ltb_lt; unfold Text.len;
              cbn [String.length String.append]; lia);
        rewrite Hlen
    end.
    unfold time_of_day, Text.is_empty.
    destruct (Strptime.strptime _ "%I%p"); [done |].
    by destruct (Strptime.strptime _ "%H:%M"). }
  split; [intros ->; exact Hgen |].
  split.
  { intros Hne time_part. rewrite Hgen. destruct rest; [done |].
    unfold time_of_day, Text.is_empty. fold time_part.
    destruct (Strptime.strptime _ "%I%p"); [done |].
    by destruct (Strptime.strptime _ "%H:%M"). }
  split.
  - intros h Hh. destruct (time_of_day_12h h Hh) as [Ham Hpm].
    split; intros ->; rewrite Hgen; cbn [Text.is_empty]; [by rewrite Ham | by rewrite Hpm].
  - intros h m Hh Hm ->. rewrite Hgen. cbn [Text.is_empty].
    by rewrite time_of_day_24h.
Qed.

Lemma parse_time_tomorrow_witness :
  let now := mk_datetime 739245 23 59 58 123456 in
  let next_day h m := mk_datetime 739246 h m 0 0 in
  parse_time now "Tomorrow 9AM" = Ok (Some (next_day 9 0)).
Proof.
  intros now next_day.
  assert (Hv : valid now) by (unfold valid, _MAXORDINAL; simpl; lia).
  assert (Hlast : ordinal now < _MAXORDINAL) by (unfold _MAXORDINAL; simpl; lia).
  destruct (parse_time_tomorrow now "Tomorrow 9AM" " 9am" Hv Hlast eq_refl)
    as (_ & _ & H12 & _).
  destruct (H12 9 ltac:(lia)) as [Ham _]. exact (Ham eq_refl).
Defined.

Example parse_time_tomorrow_alone :
  parse_time (mk_datetime 739245 23 59 58 123456) "tomorrow"
  = Ok (Some (mk_datetime 739246 9 0 0 0)).
Proof. reflexivity. Qed.

Example parse_time_tomorrow_9am :
  parse_time (mk_datetime 739245 23 59 58 123456) "tomorrow 9am"
  = Ok (Some (mk_datetime 739246 9 0 0 0)).
Proof. reflexivity. Qed.

Example parse_time_tomorrow_1430 :
  parse_time (mk_datetime 739245 23 59 58 123456) "tomorrow 14:30"
  = Ok (Some (mk_datetime 739246 14 30 0 0)).
Proof. reflexivity. Qed.

(** The time is read from position 9: a text glued to "tomorrow" loses its
    first character, and what is left of "9pm" is no time. *)
Example parse_time_tomorrow_glued :
  parse_time (mk_datetime 739245 23 59 58 123456) "tomorrow9pm"
  = Ok (Some (mk_datetime 739246 9 0 0 0)).
Proof. reflexivity. Qed.

End Tomorrow.

(** ** The time-expression parser: absolute formats *)

Section Absolute.
Import Datetime Strptime.

(** [int] and [strptime] raise nothing but [ValueError]. *)
Lemma int_raises (s : string) (e : exception) : int s = Raise e -> e = ValueError.
Proof.
  unfold int. destruct (Text.strip s) as [|c s']; simpl.
  - by intros [= <-].
  - destruct (Ascii.eqb c "-"); [| destruct (Ascii.eqb c "+")];
      destruct (int_body _ _ _); try done; by intros [= <-].
Qed.

Lemma field_raises (found : groupdict) (name : ascii) (default : Z) (e : exception) :
  field found name default = Raise e -> e = ValueError.
Proof.
  unfold field. destruct (get found name); [apply int_raises | done].
Qed.

Lemma strptime_raises (data_string format : string) (e : exception) :
  strptime data_string format = Raise e -> e = ValueError.
Proof.
  unfold strptime. destruct (pattern format); [| by intros [= <-]].
  destruct (match_items _ _) as [|[found rest] _]; [by intros [= <-] |].
  destruct (negb _); [by intros [= <-] |]. unfold from_groups.
  destruct (field found "Y" 1900) eqn:HY; simpl; [| intros [= <-]; by eapply field_raises].
  destruct (field found "m" 1) eqn:Hm; simpl; [| intros [= <-]; by eapply field_raises].
  destruct (field found "d" 1) eqn:Hd; simpl; [| intros [= <-]; by eapply field_raises].
  destruct (field found "H" 0) eqn:HH; simpl; [| intros [= <-]; by eapply field_raises].
  destruct (get found "I") as [text|].
  - destruct (int text) eqn:HI; simpl; [| intros [= <-]; by eapply int_raises].
    destruct (field found "M" 0) eqn:HM.
    2:{ destruct (_ || _); [| destruct (String.eqb _ "pm")]; simpl;
          intros [= <-]; by eapply field_raises. }
    destruct (field found "S" 0) eqn:HS.
    2:{ destruct (_ || _); [| destruct (String.eqb _ "pm")]; simpl;
          intros [= <-]; by eapply field_raises. }
    unfold new.
    destruct (_ || _); [| destruct (String.eqb _ "pm")]; simpl;
      destruct (_ && _); try done; by intros [= <-].
  - simpl.
    destruct (field found "M" 0) eqn:HM; simpl; [| intros [= <-]; by eapply field_raises].
    destruct (field found "S" 0) eqn:HS; simpl; [| intros [= <-]; by eapply field_raises].
    unfold new. destruct (_ && _); [done | by intros [= <-]].
Qed.

Lemma try_formats_formats (time_str : string) :
  try_formats time_str formats = Ok (first_format time_str).
Proof.
  unfold first_format, formats. simpl.
  repeat match goal with
  | |- context [strptime time_str ?f] =>
      let H := fresh in
      destruct (strptime time_str f) as [r | e] eqn:H;
      [done | apply strptime_raises in H; subst e]
  end.
  done.
Qed.

Lemma parse_time_absolute_formats (now : datetime) (raw : string) :
  relative_re (Text.strip (Text.lower raw)) = false ->
  Text.startswith "tomorrow" (Text.strip (Text.lower raw)) = false ->
  parse_time now raw = Ok (first_format (Text.strip (Text.lower raw))).
Proof.
  intros Hrel Htom. unfold parse_time. rewrite Hrel, Htom.
  apply try_formats_formats.
Qed.

(** Outside the relative rule [parse_time] raises only where the next day
    does not exist; on an input of neither the relative nor the "tomorrow"
    form it raises nothing. *)
Lemma parse_time_absolute_total (now : datetime) (raw : string) :
  relative_re (Text.strip (Text.lower raw)) = false ->
  Text.startswith "tomorrow" (Text.strip (Text.lower raw)) = false ->
  exists v, parse_time now raw = Ok v.
Proof. intros Hrel Htom. eexists. by apply parse_time_absolute_formats. Qed.

(** Absence: an input that none of the rules matches gives [None]. *)
Lemma parse_time_no_match (now : datetime) (raw : string) :
  relative_re (Text.strip (Text.lower raw)) = false ->
  Text.startswith "tomorrow" (Text.strip (Text.lower raw)) = false ->
  (forall fmt, In fmt formats ->
     raised (strptime (Text.strip (Text.lower raw)) fmt) = true) ->
  parse_time now raw = Ok None.
Proof.
  intros Hrel Htom Hfail. rewrite parse_time_absolute_formats by done.
  unfold first_format.
  repeat match goal with
  | |- context [strptime ?t ?f] =>
      let H := fresh in
      pose proof (Hfail f) as H; destruct (strptime t f);
      [discriminate H; simpl; tauto | clear H]
  end.
  done.
Qed.

Example parse_time_not_a_time (now : datetime) :
  parse_time now "not-a-time" = Ok None.
Proof. reflexivity. Qed.

End Absolute.

(** ** The time-expression parser: the texts of the absolute formats *)

Section Literal.
Import Datetime Strptime.

Lemma leads_flat_map {A B : Type} (f : A -> list B) (l : list A) (a : A) (b : B) :
  leads l a -> leads (f a) b -> leads (flat_map f l) b.
Proof. intros [tl ->] [tl' H]. simpl. rewrite H. by eexists. Qed.

Lemma leads_map {A B : Type} (f : A -> B) (l : list A) (a : A) :
  leads l a -> leads (map f l) (f a).
Proof. intros [tl ->]. by eexists. Qed.

Lemma match_items_tokens (toks : list (item * string)) (k : string) :
  heads toks k ->
  leads (match_items (map fst toks) (text_of toks k)) (found_of toks, k).
Proof.
  induction toks as [|[it tok] toks IH]; simpl.
  - intros _. by eexists.
  - intros [Hhead Hrest]. specialize (IH Hrest).
    destruct it as [name r | r]; simpl in *.
    + eapply leads_flat_map; [exact Hhead |].
      by apply (leads_map (fun '(found, s2) => ((name, tok) :: found, s2)) _ (_, _)).
    + eapply leads_flat_map; [exact Hhead | done].
Qed.

Lemma Forall_below (P : Z -> Prop) (n : Z) :
  Forall P (below n) -> forall x, 0 <= x < n -> P x.
Proof. intros H x Hx. rewrite List.Forall_forall in H. apply H, In_below, Hx. Qed.

Lemma forallb_below (f : Z -> bool) (n : Z) :
  forallb f (below n) = true -> forall x, 0 <= x < n -> f x = true.
Proof. intros H x Hx. rewrite forallb_forall in H. apply H, In_below, Hx. Qed.

Lemma pad2_two_digits (v : Z) : 0 <= v < 100 -> two_digits (Text.pad2 v) = true.
Proof. apply (forallb_below (fun v => two_digits (Text.pad2 v)) 100). by vm_compute. Qed.

Lemma int_pad2 (v : Z) : 0 <= v < 100 -> int (Text.pad2 v) = Ok v.
Proof.
  intros Hv.
  pose proof (forallb_below (fun v => int_is (Text.pad2 v) v) 100
                ltac:(by vm_compute) v Hv) as H.
  unfold int_is in H. destruct (int _); [| done]. apply Z.eqb_eq in H. by subst.
Qed.

Lemma pad4_checked (v : Z) :
  0 <= v < 10000 ->
  four_digits (Text.pad4 v) = true /\ int (Text.pad4 v) = Ok v.
Proof.
  intros Hv.
  pose proof (forallb_below
                (fun v => four_digits (Text.pad4 v) && int_is (Text.pad4 v) v)
                10000 ltac:(by vm_compute) v Hv) as H.
  cbv beta in H. apply andb_true_iff in H as [H4 H].
  split; [done |]. unfold int_is in H.
  destruct (int _); [| done]. apply Z.eqb_eq in H. by subst.
Qed.

Lemma pad4_four_digits (v : Z) : 0 <= v < 10000 -> four_digits (Text.pad4 v) = true.
Proof. intros Hv. by apply pad4_checked. Qed.

Lemma int_pad4 (v : Z) : 0 <= v < 10000 -> int (Text.pad4 v) = Ok v.
Proof. intros Hv. by apply pad4_checked. Qed.

Ltac enumerate_tokens :=
  unfold below; simpl;
  repeat (apply Forall_cons_2; [intros k; eexists; cbv; reflexivity |]);
  apply Forall_nil_2.

Lemma month_token (v : Z) : 1 <= v <= 12 -> token_leads "m" v.
Proof.
  intros Hv.
  pose proof (Forall_below (fun x => token_leads "m" (x + 1)) 12
                ltac:(enumerate_tokens) (v - 1) ltac:(lia)) as H.
  cbv beta in H. replace (v - 1 + 1) with v in H by lia. exact H.
Qed.

Lemma day_token (v : Z) : 1 <= v <= 31 -> token_leads "d" v.
Proof.
  intros Hv.
  pose proof (Forall_below (fun x => token_leads "d" (x + 1)) 31
                ltac:(enumerate_tokens) (v - 1) ltac:(lia)) as H.
  cbv beta in H. replace (v - 1 + 1) with v in H by lia. exact H.
Qed.

Lemma hour_token (v : Z) : 0 <= v < 24 -> token_leads "H" v.
Proof. apply (Forall_below (token_leads "H") 24). enumerate_tokens. Qed.

Lemma minute_token (v : Z) : 0 <= v < 60 -> token_leads "M" v.
Proof. apply (Forall_below (token_leads "M") 60). enumerate_tokens. Qed.

Lemma second_token (v : Z) : 0 <= v < 60 -> token_leads "S" v.
Proof. apply (Forall_below (token_leads "S") 60). enumerate_tokens. Qed.

Lemma year_token (s : string) :
  four_digits s = true ->
  forall k, rmatch (regex_of (dir "Y")) (s +:+ k) = [(s, k)].
Proof.
  destruct s as [|a [|b [|c [|d [|]]]]]; try done. simpl.
  intros [[[Ha Hb]%andb_true_iff Hc]%andb_true_iff Hd]%andb_true_iff k.
  unfold one. rewrite Ha. simpl. unfold one. rewrite Hb. simpl.
  unfold one. rewrite Hc. simpl. unfold one. by rewrite Hd.
Qed.

Lemma lit_token (c : ascii) (k : string) :
  leads (rmatch (Lit c) (String c "" +:+ k)) (String c "", k).
Proof. simpl. unfold one. rewrite Ascii.eqb_refl. by eexists. Qed.

Lemma space_token (s k : string) :
  two_digits s = true ->
  leads (rmatch Spaces (" " +:+ s +:+ k)) (" ", s +:+ k).
Proof.
  destruct s as [|a [|b [|]]]; try done. simpl.
  intros [Ha _]%andb_true_iff.
  destruct (isdigit_facts a Ha) as (-> & _). by eexists.
Qed.

(** No year starts a text whose third character is a separator. *)
Lemma year_needs_four_digits (s k : string) (c : ascii) :
  two_digits s = true -> Text.isdigit c = false ->
  rmatch (regex_of (dir "Y")) (s +:+ String c k) = [].
Proof.
  destruct s as [|a [|b [|]]]; try done. simpl.
  intros [Ha Hb]%andb_true_iff Hc.
  unfold one. rewrite Ha. simpl. unfold one. rewrite Hb. simpl.
  unfold one. by rewrite Hc.
Qed.

Lemma match_items_no_group (name : ascii) (r : regex) (items : list item)
    (s : string) :
  rmatch r s = [] -> match_items (Group name r :: items) s = [].
Proof. intros H. simpl. by rewrite H. Qed.

End Literal.

Section Formats.
Import Datetime Strptime.

Lemma strptime_tokens (format : string) (toks : list (item * string)) :
  pattern format = Some (map fst toks) ->
  heads toks "" ->
  strptime (text_of toks "") format = from_groups (found_of toks).
Proof.
  intros Hp Hh. unfold strptime. rewrite Hp.
  by destruct (match_items_tokens toks "" Hh) as [tl ->].
Qed.

Lemma strptime_unconverted (format : string) (toks : list (item * string))
    (k : string) :
  pattern format = Some (map fst toks) ->
  heads toks k -> k <> "" ->
  strptime (text_of toks k) format = Raise ValueError.
Proof.
  intros Hp Hh Hk. unfold strptime. rewrite Hp.
  destruct (match_items_tokens toks k Hh) as [tl ->]. by destruct k.
Qed.

Lemma strptime_no_match (format : string) (items : list item) (s : string) :
  pattern format = Some items -> match_items items s = [] ->
  strptime s format = Raise ValueError.
Proof. intros Hp Hm. unfold strptime. by rewrite Hp, Hm. Qed.

Lemma clock_heads (h mi : Z) (k : string) :
  0 <= h < 24 -> 0 <= mi < 60 -> heads (clock_tokens h mi) k.
Proof.
  intros Hh Hm. unfold clock_tokens. cbn [heads text_of].
  split; [apply hour_token, Hh |].
  split; [apply lit_token |]. split; [apply minute_token, Hm | done].
Qed.

Lemma iso_heads (y m d h mi : Z) (k : string) :
  shown y m d h mi 0 -> heads (iso_tokens y m d h mi) k.
Proof.
  intros (Hy & Hm & Hd & Hh & Hmi & _).
  unfold iso_tokens. cbn [heads text_of app].
  split; [rewrite year_token by (apply pad4_four_digits; lia); by eexists |].
  split; [apply lit_token |]. split; [apply month_token, Hm |].
  split; [apply lit_token |]. split; [apply day_token, Hd |].
  split; [apply space_token, pad2_two_digits; lia |].
  by apply (clock_heads h mi k).
Qed.

Lemma heads_app (toks1 toks2 : list (item * string)) (k : string) :
  heads toks1 (text_of toks2 k) -> heads toks2 k -> heads (toks1 ++ toks2) k.
Proof.
  assert (Ht : forall toks, text_of (toks ++ toks2) k = text_of toks (text_of toks2 k)).
  { induction toks as [|[it tok] toks IH]; simpl; [done | by rewrite IH]. }
  induction toks1 as [|[it tok] toks1 IH]; simpl; [done |].
  intros [H1 H2] H3. rewrite Ht. split; [done | by apply IH].
Qed.

Lemma iso_seconds_heads (y m d h mi s : Z) :
  shown y m d h mi s -> heads (iso_seconds_tokens y m d h mi s) "".
Proof.
  intros Hs. unfold iso_seconds_tokens. apply heads_app.
  - apply iso_heads. unfold shown in *. lia.
  - cbn [heads text_of]. split; [apply lit_token |].
    split; [apply second_token; unfold shown in Hs; lia | done].
Qed.

Lemma day_first_heads (sep : ascii) (y m d h mi : Z) (k : string) :
  shown y m d h mi 0 -> heads (day_first_tokens sep y m d h mi) k.
Proof.
  intros (Hy & Hm & Hd & Hh & Hmi & _).
  unfold day_first_tokens. cbn [heads text_of app].
  split; [apply day_token, Hd |]. split; [apply lit_token |].
  split; [apply month_token, Hm |]. split; [apply lit_token |].
  split; [rewrite year_token by (apply pad4_four_digits; lia); by eexists |].
  split; [apply space_token, pad2_two_digits; lia |].
  by apply (clock_heads h mi k).
Qed.

(** The texts are their tokens in sequence. *)
Lemma iso_text_tokens (y m d h mi : Z) (k : string) :
  text_of (iso_tokens y m d h mi) k = iso_text y m d h mi +:+ k.
Proof.
  unfold iso_text, clock_text. cbn [iso_tokens clock_tokens text_of app].
  by rewrite !append_assoc.
Qed.

Lemma iso_seconds_text_tokens (y m d h mi s : Z) :
  text_of (iso_seconds_tokens y m d h mi s) "" = iso_seconds_text y m d h mi s.
Proof.
  unfold iso_seconds_text, iso_text, clock_text.
  cbn [iso_seconds_tokens iso_tokens clock_tokens text_of app].
  by rewrite !append_assoc, append_empty_r.
Qed.

Lemma slash_text_tokens (y m d h mi : Z) :
  text_of (day_first_tokens "/" y m d h mi) "" = slash_text y m d h mi.
Proof.
  unfold slash_text, clock_text.
  cbn [day_first_tokens clock_tokens text_of app].
  by rewrite append_empty_r.
Qed.

Lemma dash_text_tokens (y m d h mi : Z) :
  text_of (day_first_tokens "-" y m d h mi) "" = dash_text y m d h mi.
Proof.
  unfold dash_text, clock_text.
  cbn [day_first_tokens clock_tokens text_of app].
  by rewrite append_empty_r.
Qed.

(** The fields read back from the groups of a text. *)
Lemma from_groups_date_time (found : groupdict) (y m d h mi s : Z) :
  shown y m d h mi s ->
  get found "Y" = Some (Text.pad4 y) -> get found "m" = Some (Text.pad2 m) ->
  get found "d" = Some (Text.pad2 d) -> get found "H" = Some (Text.pad2 h) ->
  get found "M" = Some (Text.pad2 mi) ->
  get found "I" = None ->
  (get found "S" = Some (Text.pad2 s) \/ (get found "S" = None /\ s = 0)) ->
  from_groups found = new y m d h mi s 0.
Proof.
  intros (Hy & Hm & Hd & Hh & Hmi & Hs) HY Hmo Hda HH HM HI HS.
  unfold from_groups, field. rewrite HY, Hmo, Hda, HH, HM, HI.
  rewrite int_pad4, !int_pad2 by lia. simpl.
  destruct HS as [-> | [-> ->]]; [by rewrite int_pad2 by lia | done].
Qed.

Lemma strptime_iso (y m d h mi : Z) :
  shown y m d h mi 0 ->
  strptime (iso_text y m d h mi) "%Y-%m-%d %H:%M" = new y m d h mi 0 0.
Proof.
  intros Hs. rewrite <- (append_empty_r (iso_text y m d h mi)), <- iso_text_tokens.
  rewrite strptime_tokens; [| reflexivity | by apply iso_heads].
  apply from_groups_date_time; try done. by right.
Qed.

Lemma strptime_iso_seconds (y m d h mi s : Z) :
  shown y m d h mi s ->
  strptime (iso_seconds_text y m d h mi s) "%Y-%m-%d %H:%M" = Raise ValueError
  /\ strptime (iso_seconds_text y m d h mi s) "%Y-%m-%d %H:%M:%S"
     = new y m d h mi s 0.
Proof.
  intros Hs. split.
  - unfold iso_seconds_text. rewrite <- iso_text_tokens.
    apply strptime_unconverted; [reflexivity | | done].
    apply iso_heads. unfold shown in *. lia.
  - rewrite <- iso_seconds_text_tokens.
    rewrite strptime_tokens; [| reflexivity | by apply iso_seconds_heads].
    apply from_groups_date_time; try done. by left.
Qed.

Lemma strptime_year_first_fails (format : string) (items : list item)
    (d : Z) (c : ascii) (k : string) :
  pattern format = Some (dir "Y" :: items) ->
  0 <= d < 100 -> Text.isdigit c = false ->
  strptime (Text.pad2 d +:+ String c k) format = Raise ValueError.
Proof.
  intros Hp Hd Hc. eapply strptime_no_match; [exact Hp |].
  apply match_items_no_group, year_needs_four_digits; [| done].
  by apply pad2_two_digits.
Qed.

Lemma match_items_no_plain (name : ascii) (r1 r2 : regex) (items : list item)
    (s : string) :
  Forall (fun '(_, s1) => rmatch r2 s1 = []) (rmatch r1 s) ->
  match_items (Group name r1 :: Plain r2 :: items) s = [].
Proof.
  cbn [match_items]. induction (rmatch r1 s) as [|[m s1] l IH]; [done |].
  intros [H1 H2]%Forall_cons. simpl. rewrite H1. simpl. by apply IH.
Qed.

Lemma slash_fails (v : Z) : 1 <= v <= 31 -> slash_fails_after_day v.
Proof.
  intros Hv.
  assert (H : Forall (fun x => slash_fails_after_day (x + 1)) (below 31)).
  { unfold below; simpl.
    repeat (apply List.Forall_cons;
            [intros k;
             match goal with
             | |- Forall ?P ?l => let l' := eval cbv in l in change (Forall P l')
             end;
             repeat (apply List.Forall_cons; [reflexivity |]);
             apply List.Forall_nil |]).
    apply List.Forall_nil. }
  pose proof (Forall_below _ 31 H (v - 1) ltac:(lia)) as H'.
  cbv beta in H'. replace (v - 1 + 1) with v in H' by lia. exact H'.
Qed.

Lemma strptime_slash (y m d h mi : Z) :
  shown y m d h mi 0 ->
  strptime (slash_text y m d h mi) "%Y-%m-%d %H:%M" = Raise ValueError
  /\ strptime (slash_text y m d h mi) "%Y-%m-%d %H:%M:%S" = Raise ValueError
  /\ strptime (slash_text y m d h mi) "%d/%m/%Y %H:%M" = new y m d h mi 0 0.
Proof.
  intros Hs. pose proof Hs as (Hy & Hm & Hd & Hh & Hmi & _).
  split; [| split].
  - eapply (strptime_year_first_fails _ _ d "/"); [reflexivity | lia | done].
  - eapply (strptime_year_first_fails _ _ d "/"); [reflexivity | lia | done].
  - rewrite <- slash_text_tokens.
    rewrite strptime_tokens; [| reflexivity | by apply day_first_heads].
    apply from_groups_date_time; try done. by right.
Qed.

Lemma strptime_dash (y m d h mi : Z) :
  shown y m d h mi 0 ->
  strptime (dash_text y m d h mi) "%Y-%m-%d %H:%M" = Raise ValueError
  /\ strptime (dash_text y m d h mi) "%Y-%m-%d %H:%M:%S" = Raise ValueError
  /\ strptime (dash_text y m d h mi) "%d/%m/%Y %H:%M" = Raise ValueError
  /\ strptime (dash_text y m d h mi) "%d-%m-%Y %H:%M" = new y m d h mi 0 0.
Proof.
  intros Hs. pose proof Hs as (Hy & Hm & Hd & Hh & Hmi & _).
  split; [| split; [| split]].
  - eapply (strptime_year_first_fails _ _ d "-"); [reflexivity | lia | done].
  - eapply (strptime_year_first_fails _ _ d "-"); [reflexivity | lia | done].
  - eapply strptime_no_match; [reflexivity |].
    apply match_items_no_plain. by apply (slash_fails d Hd).
  - rewrite <- dash_text_tokens.
    rewrite strptime_tokens; [| reflexivity | by apply day_first_heads].
    apply from_groups_date_time; try done. by right.
Qed.


Lemma new_shown (y m d h mi s : Z) :
  shown y m d h mi s -> _check_date_fields y m d = true ->
  new y m d h mi s 0 = Ok (mk_datetime (_ymd2ord y m d) h mi s 0).
Proof.
  intros (Hy & Hm & Hd & Hh & Hmi & Hs) Hdate. unfold new. rewrite Hdate.
  assert (_check_time_fields h mi s 0 = true) as ->; [| done].
  unfold _check_time_fields. rewrite !andb_true_iff, !Z.leb_le. lia.
Qed.

(** C4.  For an input that, lower-cased and trimmed, neither matches the
    relative shorthand nor starts with "tomorrow": [parse_time] tries the
    formats YYYY-MM-DD HH:MM, YYYY-MM-DD HH:MM:SS, DD/MM/YYYY HH:MM and
    DD-MM-YYYY HH:MM in this order and returns the first parse that
    succeeds (absence when none does); the result does not depend on the
    reading of the clock; and the text of a date and a time in one of the
    four formats gives exactly that date and time. *)
Theorem parse_time_absolute (now : datetime) (raw : string) :
  relative_re (Text.strip (Text.lower raw)) = false ->
  Text.startswith "tomorrow" (Text.strip (Text.lower raw)) = false ->
  parse_time now raw = Ok (first_format (Text.strip (Text.lower raw)))
  /\ (forall now', parse_time now' raw = parse_time now raw)
  /\ (forall y m d h mi s,
        shown y m d h mi s -> _check_date_fields y m d = true ->
        (Text.strip (Text.lower raw) = iso_text y m d h mi
         \/ Text.strip (Text.lower raw) = slash_text y m d h mi
         \/ Text.strip (Text.lower raw) = dash_text y m d h mi ->
         parse_time now raw
         = Ok (Some (mk_datetime (_ymd2ord y m d) h mi 0 0)))
        /\ (Text.strip (Text.lower raw) = iso_seconds_text y m d h mi s ->
            parse_time now raw
            = Ok (Some (mk_datetime (_ymd2ord y m d) h mi s 0)))).
Proof.
  intros Hrel Htom.
  assert (Hparse : forall t, parse_time t raw
                             = Ok (first_format (Text.strip (Text.lower raw))))
    by (intros t; by apply parse_time_absolute_formats).
  split; [apply Hparse |]. split; [intros now'; by rewrite !Hparse |].
  intros y m d h mi s Hs Hdate.
  assert (Hs0 : shown y m d h mi 0) by (unfold shown in *; lia).
  rewrite Hparse. unfold first_format. split.
  - intros [-> | [-> | ->]].
    + by rewrite strptime_iso, new_shown.
    + destruct (strptime_slash y m d h mi Hs0) as (-> & -> & ->).
      by rewrite new_shown.
    + destruct (strptime_dash y m d h mi Hs0) as (-> & -> & -> & ->).
      by rewrite new_shown.
  - intros ->. destruct (strptime_iso_seconds y m d h mi s Hs) as (-> & ->).
    by rewrite new_shown.
Qed.

Lemma parse_time_absolute_witness :
  parse_time (mk_datetime 739245 23 59 58 123456) "2024-12-25 10:30"
  = Ok (Some (mk_datetime (_ymd2ord 2024 12 25) 10 30 0 0)).
Proof.
  destruct (parse_time_absolute (mk_datetime 739245 23 59 58 123456)
              "2024-12-25 10:30" eq_refl eq_refl) as (_ & _ & Hliteral).
  destruct (Hliteral 2024 12 25 10 30 0) as [Htext _].
  - unfold shown. lia.
  - reflexivity.
  - apply Htext. left. reflexivity.
Defined.

(** The example of the specification: the same timestamp at every reading
    of the clock. *)
Example parse_time_christmas (now : datetime) :
  parse_time now "2024-12-25 10:30" = Ok (Some (mk_datetime 739245 10 30 0 0)).
Proof. reflexivity. Qed.

Example parse_time_other_formats (now : datetime) :
  parse_time now "2024-12-25 10:30:59" = Ok (Some (mk_datetime 739245 10 30 59 0))
  /\ parse_time now "25/12/2024 10:30" = Ok (Some (mk_datetime 739245 10 30 0 0))
  /\ parse_time now "25-12-2024 10:30" = Ok (Some (mk_datetime 739245 10 30 0 0))
  /\ parse_time now "2024-02-30 10:30" = Ok None.
Proof. repeat split. Qed.

End Formats.

(** ** More on the rule commands *)

Section RuleCommands.

Lemma responses_of_Some (self : AutoResponderBot) (user : Z) :
  responses_of self user <> [] ->
  auto_responses self !! user = Some (responses_of self user).
Proof. unfold responses_of. by destruct (auto_responses self !! user). Qed.

Lemma toggle_toggle (r : AutoResponse) : toggle (toggle r) = r.
Proof. destruct r as [t r e c en]. unfold toggle. simpl. by rewrite negb_involutive. Qed.

Lemma int_cases (s : string) :
  (exists n, int s = Ok n) \/ int s = Raise ValueError.
Proof.
  destruct (int s) as [n | e] eqn:H; [left; by exists n | right].
  by rewrite (int_raises s e H).
Qed.

Lemma first_match_app (l : list AutoResponse) (r : AutoResponse) (t : string) :
  first_match (l ++ [r]) t =
    match first_match l t with
    | Some x => Some x
    | None => if enabled r && matches r t then Some r else None
    end.
Proof.
  induction l as [|x l IH]; simpl.
  - destruct (enabled r); simpl; [by destruct (matches r t) | done].
  - destruct (enabled x); simpl; [| done]. by destruct (matches x t).
Qed.

(** X4.  [/deleteresponse] by an admin, with a first argument: an argument
    that is no integer gets "Please provide a valid number" and a number
    outside 1..[len] (zero and negative numbers too) gets "Invalid response
    number", both without any change; a number [n] in range removes exactly
    the [n]-th rule of the caller (the one [/listresponses] shows at that
    number) and keeps the others in order, leaves the other users' rules and
    the reminders alone, saves the new state and names the deleted
    trigger. *)
Theorem delete_response_command_spec
    (cfg : config) (self : AutoResponderBot) (u : update)
    (arg : string) (args : list string) :
  _is_admin cfg (effective_user u) = true ->
  let responses := responses_of self (effective_user u) in
  let out := delete_response_command cfg self u (arg :: args) in
  (forall e, int arg = Raise e -> out = reply self NumberInvalid)
  /\ (forall n, int arg = Ok n ->
        ~ (1 <= n <= Z.of_nat (length responses)) ->
        out = reply self ResponseNumberInvalid)
  /\ (forall n, int arg = Ok n -> 1 <= n <= Z.of_nat (length responses) ->
        exists deleted,
          responses !! Z.to_nat (n - 1) = Some deleted
          /\ responses_of (bot out) (effective_user u)
             = take (Z.to_nat (n - 1)) responses ++ drop (Z.to_nat n) responses
          /\ (forall other, other <> effective_user u ->
                auto_responses (bot out) !! other = auto_responses self !! other)
          /\ reminders (bot out) = reminders self
          /\ calls out = [save_data (bot out);
                          reply_text (ResponseDeleted (trigger deleted))]
          /\ escaped out = None).
Proof.
  intros Hadmin responses out. subst out. unfold delete_response_command.
  rewrite Hadmin. simpl. fold responses.
  split; [| split].
  - intros e He. rewrite He. by rewrite (int_raises arg e He).
  - intros n Hn Hout. rewrite Hn.
    destruct (Z.ltb_spec n 1); [done |].
    destruct (Z.ltb_spec (Z.of_nat (length responses)) n); [done | lia].
  - intros n Hn Hin. rewrite Hn.
    destruct (Z.ltb_spec n 1); [lia |].
    destruct (Z.ltb_spec (Z.of_nat (length responses)) n); [lia |]. simpl.
    destruct (lookup_lt_is_Some_2 responses (Z.to_nat (n - 1))) as [deleted Hd]; [lia |].
    rewrite Hd. exists deleted. split; [done |]. simpl.
    split.
    { unfold responses_of. simpl. rewrite lookup_insert_eq. simpl.
      rewrite delete_take_drop. do 2 f_equal. lia. }
    split; [intros other Hne; by apply lookup_insert_ne |]. done.
Qed.

(** X5.  [/toggleresponse] by an admin with a number in range flips the
    [enabled] flag of that rule only, and doing it a second time with the
    same number gives back the state the bot had: the command is its own
    inverse.  Each of the two calls saves and reports the new status. *)
Theorem toggle_response_command_twice
    (cfg : config) (self : AutoResponderBot) (u : update)
    (arg : string) (args : list string) (n : Z) :
  _is_admin cfg (effective_user u) = true ->
  int arg = Ok n ->
  1 <= n <= Z.of_nat (length (responses_of self (effective_user u))) ->
  let responses := responses_of self (effective_user u) in
  let i := Z.to_nat (n - 1) in
  let once := toggle_response_command cfg self u (arg :: args) in
  let twice := toggle_response_command cfg (bot once) u (arg :: args) in
  exists r,
    responses !! i = Some r
    /\ responses_of (bot once) (effective_user u) = <[i := toggle r]> responses
    /\ enabled (toggle r) = negb (enabled r)
    /\ calls once = [save_data (bot once);
                     reply_text (ResponseToggled (negb (enabled r)) (trigger r))]
    /\ bot twice = self
    /\ calls twice = [save_data self;
                      reply_text (ResponseToggled (enabled r) (trigger r))].
Proof.
  intros Hadmin Hn Hin responses i once twice.
  destruct (lookup_lt_is_Some_2 responses i) as [r Hr]; [unfold i, responses; lia |].
  assert (Hnz : responses <> []) by (intros E; by rewrite E in Hr).
  pose proof (responses_of_Some self _ Hnz) as Hmap. fold responses in Hmap.
  assert (Hguard : (n <? 1) || (Z.of_nat (length responses) <? n) = false).
  { unfold responses.
    destruct (Z.ltb_spec n 1); [lia |].
    by destruct (Z.ltb_spec
                   (Z.of_nat (length (responses_of self (effective_user u)))) n);
      [lia |]. }
  assert (Honce : once =
            {| bot := set_responses self (effective_user u) (<[i := toggle r]> responses);
               calls := [save_data (set_responses self (effective_user u)
                                      (<[i := toggle r]> responses));
                         reply_text (ResponseToggled (negb (enabled r)) (trigger r))];
               escaped := None |}).
  { subst once. unfold toggle_response_command.
    rewrite Hadmin, Hn. simpl. fold responses. rewrite Hguard. fold i. by rewrite Hr. }
  assert (Hresp1 : responses_of (bot once) (effective_user u) = <[i := toggle r]> responses).
  { rewrite Honce. unfold responses_of. simpl. by rewrite lookup_insert_eq. }
  assert (Htwice : twice =
            {| bot := self;
               calls := [save_data self;
                         reply_text (ResponseToggled (enabled r) (trigger r))];
               escaped := None |}).
  { subst twice. unfold toggle_response_command.
    rewrite Hadmin, Hn. simpl. rewrite Hresp1, length_insert, Hguard. fold i.
    rewrite list_lookup_insert_eq by (apply lookup_lt_Some in Hr; done).
    rewrite toggle_toggle, list_insert_insert_eq, (list_insert_id _ _ _ Hr).
    assert (set_responses (bot once) (effective_user u) responses = self) as ->.
    { rewrite Honce. unfold set_responses. simpl. rewrite insert_insert_eq.
      rewrite (insert_id _ _ _ Hmap). by destruct self. }
    destruct r; simpl. by rewrite negb_involutive. }
  exists r. rewrite Hresp1, Honce, Htwice. simpl. repeat split; done.
Qed.

(** X2.  After an admin adds a rule with [/addresponse], the rule is the last
    of the caller's list.  A later message of the caller is answered by the
    first older rule that matches it, if there is one; otherwise by the new
    response exactly when the message contains the trigger, letter case
    aside.  Messages of every other user are answered as before. *)
Theorem add_response_then_message
    (cfg : config) (self : AutoResponderBot) (u : update) (args : list string)
    (trigger response : string) :
  _is_admin cfg (effective_user u) = true ->
  Text.contains "|" (Text.join " " args) = true ->
  parts args = (trigger, response) ->
  trigger <> "" -> response <> "" ->
  let added := bot (add_response_command cfg self u args) in
  let rule := mk_AutoResponse trigger response false false true in
  responses_of added (effective_user u)
    = responses_of self (effective_user u) ++ [rule]
  /\ (forall chat t, t <> "" ->
        calls (handle_message added (incoming (effective_user u) chat t)) =
          match first_match (responses_of self (effective_user u)) t with
          | Some r => [reply_text (Verbatim (response_of r))]
          | None =>
              if Text.contains (Text.lower trigger) (Text.lower t)
              then [reply_text (Verbatim response)] else []
          end)
  /\ (forall other chat t, other <> effective_user u ->
        calls (handle_message added (incoming other chat t))
        = calls (handle_message self (incoming other chat t))).
Proof.
  intros Hadmin Hsep Hparts Ht Hr added rule.
  assert (Hadded : added = append_response self (effective_user u) rule).
  { subst added. unfold add_response_command, parts in *.
    rewrite Hadmin, Hsep. simpl.
    assert (bool_decide (args = []) = false) as ->
      by (destruct args; [by vm_compute in Hsep | done]).
    destruct (Text.split_once "|" (Text.join " " args)) as [a b].
    injection Hparts as -> ->.
    by destruct trigger, response. }
  assert (Hresp : responses_of added (effective_user u)
                  = responses_of self (effective_user u) ++ [rule]).
  { rewrite Hadded. unfold responses_of at 1. simpl. by rewrite lookup_insert_eq. }
  split; [done |]. split.
  - intros chat t Hne. unfold handle_message, incoming. simpl.
    destruct t as [|c t]; [done |]. cbn [Text.is_empty].
    rewrite Hresp, first_match_app.
    destruct (first_match _ _); [done |].
    change (enabled rule && matches rule (String c t))
      with (Text.contains (Text.lower trigger) (Text.lower (String c t))).
    by destruct (Text.contains (Text.lower trigger) _).
  - intros other chat t Hne. unfold handle_message, incoming. simpl.
    assert (responses_of added other = responses_of self other) as ->.
    { rewrite Hadded. unfold responses_of. simpl. by rewrite lookup_insert_ne. }
    destruct (Text.is_empty t); [done |]. by destruct (first_match _ _).
Qed.

Lemma lower_is_empty (t : string) : Text.lower t = "" -> t = "".
Proof. by destruct t. Qed.

(** X3.  After an admin adds a rule with [/addresponse_exact], a later message
    of the caller is answered by the first older rule that matches it, if
    there is one; otherwise by the new response exactly when the whole
    message equals the trigger, letter case aside.  Other users are answered
    as before.  A rule added with an empty trigger never answers anything:
    every update is handled as it was before the rule was added. *)
Theorem add_exact_response_then_message
    (cfg : config) (self : AutoResponderBot) (u : update) (args : list string)
    (trigger response : string) :
  _is_admin cfg (effective_user u) = true ->
  Text.contains "|" (Text.join " " args) = true ->
  parts args = (trigger, response) ->
  let added := bot (add_exact_response_command cfg self u args) in
  (forall chat t, t <> "" ->
     calls (handle_message added (incoming (effective_user u) chat t)) =
       match first_match (responses_of self (effective_user u)) t with
       | Some r => [reply_text (Verbatim (response_of r))]
       | None =>
           if String.eqb (Text.lower t) (Text.lower trigger)
           then [reply_text (Verbatim response)] else []
       end)
  /\ (forall other chat t, other <> effective_user u ->
        calls (handle_message added (incoming other chat t))
        = calls (handle_message self (incoming other chat t)))
  /\ (trigger = "" ->
      forall v, calls (handle_message added v) = calls (handle_message self v)).
Proof.
  intros Hadmin Hsep Hparts added.
  set (rule := mk_AutoResponse trigger response true false true).
  assert (Hadded : added = append_response self (effective_user u) rule).
  { subst added. unfold add_exact_response_command, parts in *.
    rewrite Hadmin, Hsep. simpl.
    assert (bool_decide (args = []) = false) as ->
      by (destruct args; [by vm_compute in Hsep | done]).
    destruct (Text.split_once "|" (Text.join " " args)) as [a b].
    by injection Hparts as -> ->. }
  assert (Hresp : responses_of added (effective_user u)
                  = responses_of self (effective_user u) ++ [rule]).
  { rewrite Hadded. unfold responses_of at 1. simpl. by rewrite lookup_insert_eq. }
  assert (Hother : forall other, other <> effective_user u ->
                     responses_of added other = responses_of self other).
  { intros other Hne. rewrite Hadded. unfold responses_of. simpl.
    by rewrite lookup_insert_ne. }
  assert (Hsame : forall chat t, t <> "" ->
     calls (handle_message added (incoming (effective_user u) chat t)) =
       match first_match (responses_of self (effective_user u)) t with
       | Some r => [reply_text (Verbatim (response_of r))]
       | None =>
           if String.eqb (Text.lower t) (Text.lower trigger)
           then [reply_text (Verbatim response)] else []
       end).
  { intros chat t Hne. unfold handle_message, incoming. simpl.
    destruct t as [|c t]; [done |]. cbn [Text.is_empty].
    rewrite Hresp, first_match_app.
    destruct (first_match _ _); [done |].
    change (enabled rule && matches rule (String c t))
      with (String.eqb (Text.lower (String c t)) (Text.lower trigger)).
    by destruct (String.eqb _ _). }
  split; [exact Hsame |]. split.
  - intros other chat t Hne. unfold handle_message, incoming. simpl.
    rewrite (Hother other Hne).
    destruct (Text.is_empty t); [done |]. by destruct (first_match _ _).
  - intros -> [user chat [t|]]; [| done].
    destruct (Z.eq_dec user (effective_user u)) as [-> | Hne].
    + destruct t as [|c t]; [done |].
      change (mk_update (effective_user u) chat (Some (String c t)))
        with (incoming (effective_user u) chat (String c t)).
      rewrite Hsame by done. unfold handle_message, incoming. simpl.
      by destruct (first_match _ _).
    + unfold handle_message. simpl. rewrite (Hother user Hne).
      destruct (Text.is_empty t); [done |]. by destruct (first_match _ _).
Qed.

Lemma _is_admin_spec (cfg : config) (user : Z) :
  _is_admin cfg user = true <-> In user (admin_ids cfg).
Proof.
  unfold _is_admin. rewrite existsb_exists. split.
  - intros [x [Hx ->%Z.eqb_eq]]. done.
  - intros H. exists user. split; [done | apply Z.eqb_refl].
Qed.

(** X1.  Whatever ids the admin list holds, a caller who is not in it gets
    the permission-denied reply from each of the eight restricted commands,
    and the state is left as it was. *)
Theorem restricted_commands_need_admin
    (cfg : config) (self : AutoResponderBot) (u : update) :
  ~ In (effective_user u) (admin_ids cfg) ->
  (forall args,
     add_response_command cfg self u args = reply self PermissionDenied)
  /\ (forall args,
        add_exact_response_command cfg self u args = reply self PermissionDenied)
  /\ list_responses_command cfg self u = reply self PermissionDenied
  /\ (forall args,
        delete_response_command cfg self u args = reply self PermissionDenied)
  /\ (forall args,
        toggle_response_command cfg self u args = reply self PermissionDenied)
  /\ (forall args job_queue now1 now2 now3,
        remind_command cfg self u args job_queue now1 now2 now3
        = reply self PermissionDenied)
  /\ reminders_command cfg self u = reply self PermissionDenied
  /\ (forall args,
        delete_reminder_command cfg self u args = reply self PermissionDenied).
Proof.
  intros Hnot.
  assert (Hgate : _is_admin cfg (effective_user u) = false).
  { destruct (_is_admin cfg (effective_user u)) eqn:H; [| done].
    by apply _is_admin_spec in H. }
  unfold add_response_command, add_exact_response_command,
    list_responses_command, delete_response_command, toggle_response_command,
    remind_command, reminders_command, delete_reminder_command.
  rewrite Hgate. repeat split.
Qed.

End RuleCommands.

(** ** More on the reminder commands *)

Section ReminderCommands.

Lemma Reminder_remove_length (r : Reminder) (l : list Reminder) :
  In r l -> S (length (Reminder_remove r l)) = length l.
Proof.
  induction l as [|x l IH]; simpl; [done |]. intros H.
  destruct (Reminder_eq x r) eqn:He; [done |]. simpl. f_equal. apply IH.
  destruct H as [-> | H]; [| done]. by rewrite Reminder_eq_refl in He.
Qed.

Lemma Reminder_remove_filter (p : Reminder -> bool) (r : Reminder)
    (l : list Reminder) :
  List.filter p (Reminder_remove r l) =
    if p r then Reminder_remove r (List.filter p l) else List.filter p l.
Proof.
  induction l as [|x l IH]; simpl; [by destruct (p r) |].
  destruct (Reminder_eq x r) eqn:He.
  - apply Reminder_eq_spec in He. subst x.
    destruct (p r); simpl; [by rewrite Reminder_eq_refl | done].
  - simpl. rewrite IH. destruct (p x) eqn:Hx; simpl.
    + destruct (p r); [by rewrite He | done].
    + done.
Qed.

(** X10.  [/deletereminder] by an admin, with a first argument: no integer
    and out-of-range numbers (counted among the caller's own reminders) are
    refused without change; a number [n] in range picks the caller's [n]-th
    reminder and removes the first reminder equal to it, so the list is one
    shorter, the reminders of every other user are exactly what they were,
    the rules are untouched, and the state is saved. *)
Theorem delete_reminder_command_spec
    (cfg : config) (self : AutoResponderBot) (u : update)
    (arg : string) (args : list string) :
  _is_admin cfg (effective_user u) = true ->
  let mine := user_reminders self (effective_user u) in
  let out := delete_reminder_command cfg self u (arg :: args) in
  (forall e, int arg = Raise e -> out = reply self NumberInvalid)
  /\ (forall n, int arg = Ok n -> ~ (1 <= n <= Z.of_nat (length mine)) ->
        out = reply self ReminderNumberInvalid)
  /\ (forall n, int arg = Ok n -> 1 <= n <= Z.of_nat (length mine) ->
        exists r,
          mine !! Z.to_nat (n - 1) = Some r
          /\ reminders (bot out) = Reminder_remove r (reminders self)
          /\ S (length (reminders (bot out))) = length (reminders self)
          /\ user_reminders (bot out) (effective_user u) = Reminder_remove r mine
          /\ (forall other, other <> effective_user u ->
                user_reminders (bot out) other = user_reminders self other)
          /\ auto_responses (bot out) = auto_responses self
          /\ calls out = [save_data (bot out);
                          reply_text (ReminderDeleted (message r))]
          /\ escaped out = None).
Proof.
  intros Hadmin mine out. subst out. unfold delete_reminder_command.
  rewrite Hadmin. simpl. fold mine.
  split; [| split].
  - intros e He. rewrite He. by rewrite (int_raises arg e He).
  - intros n Hn Hout. rewrite Hn.
    destruct (Z.ltb_spec n 1); [done |].
    destruct (Z.ltb_spec (Z.of_nat (length mine)) n); [done | lia].
  - intros n Hn Hin. rewrite Hn.
    destruct (Z.ltb_spec n 1); [lia |].
    destruct (Z.ltb_spec (Z.of_nat (length mine)) n); [lia |]. simpl.
    destruct (lookup_lt_is_Some_2 mine (Z.to_nat (n - 1))) as [r Hr]; [lia |].
    rewrite Hr. exists r. simpl.
    assert (Hmine : In r mine) by (apply list_elem_of_In; by eapply list_elem_of_lookup_2).
    assert (Hall : In r (reminders self) /\ (user_id r =? effective_user u) = true)
      by (by apply filter_In in Hmine).
    destruct Hall as [Hall Huser].
    split; [done |]. split; [done |].
    split; [by apply Reminder_remove_length |].
    split.
    { unfold user_reminders. simpl. rewrite Reminder_remove_filter. by rewrite Huser. }
    split; [| done].
    intros other Hne. unfold user_reminders. simpl. rewrite Reminder_remove_filter.
    destruct (user_id r =? other) eqn:Ho; [| done]. lia.
Qed.

(** X11.  [send_reminder] for every state, job and gateway: nothing escapes
    and the rules are never touched.  When [send_message] raises, the state
    is unchanged and nothing is saved, so the reminder stays in the list.
    When it delivers, the first reminder equal to the job's is removed and
    the state saved if there is one, and nothing else happens if there is
    none. *)
Theorem send_reminder_spec
    (self : AutoResponderBot) (j : job) (gateway : Gateway) :
  let r := data_reminder j in
  let out := send_reminder self j gateway in
  let sending := send_message (chat_id r) (ReminderDue (message r)) in
  escaped out = None
  /\ auto_responses (bot out) = auto_responses self
  /\ (raised (gateway (chat_id r) (ReminderDue (message r))) = true ->
      bot out = self /\ calls out = [sending])
  /\ (raised (gateway (chat_id r) (ReminderDue (message r))) = false ->
      reminders (bot out) = Reminder_remove r (reminders self)
      /\ (In r (reminders self) ->
          S (length (reminders (bot out))) = length (reminders self)
          /\ calls out = [sending; save_data (bot out)])
      /\ (~ In r (reminders self) -> bot out = self /\ calls out = [sending])).
Proof.
  intros r out sending. subst out. unfold send_reminder. fold r.
  destruct (gateway _ _) as [[]|e]; simpl.
  - destruct (Reminder_in r (reminders self)) eqn:Hin; simpl.
    + apply Reminder_in_spec in Hin.
      repeat split; try done. by apply Reminder_remove_length.
    + apply Reminder_in_false in Hin.
      repeat split; try done. by rewrite Reminder_remove_absent.
  - repeat split; done.
Qed.

End ReminderCommands.

(** ** More on [/remind] *)

Section Remind.
Import Datetime.

(** What [/remind] does once the time is parsed and lies ahead. *)
Lemma remind_command_accepted
    (cfg : config) (self : AutoResponderBot) (u : update)
    (time_str : string) (rest : list string) (job_queue : option JobQueue)
    (now1 now2 now3 remind_time : datetime) :
  _is_admin cfg (effective_user u) = true ->
  rest <> [] ->
  parse_time now1 time_str = Ok (Some remind_time) ->
  leb remind_time now2 = false ->
  let r := new_reminder u rest remind_time in
  let j := new_job self u rest remind_time now3 in
  remind_command cfg self u (time_str :: rest) job_queue now1 now2 now3 =
    match job_queue with
    | None =>
        {| bot := with_reminder self r;
           calls := [save_data (with_reminder self r);
                     reply_text SchedulingUnavailable];
           escaped := None |}
    | Some queue =>
        match queue j with
        | Ok _ =>
            {| bot := with_reminder self r;
               calls := [save_data (with_reminder self r); run_once j;
                         reply_text (ReminderSet remind_time (Text.join " " rest)
                                       (diff_micros remind_time now3))];
               escaped := None |}
        | Raise e =>
            let back :=
              mk_AutoResponderBot (auto_responses self)
                (Reminder_remove r (reminders self ++ [r])) in
            {| bot := back;
               calls := [save_data (with_reminder self r); run_once j;
                         reply_text (SchedulingError e); save_data back];
               escaped := None |}
        end
    end.
Proof.
  intros Hadmin Hrest Hparse Hle r j. unfold remind_command.
  rewrite Hadmin. simpl. destruct rest as [|b rest]; [done |].
  rewrite Hparse, Hle. cbv zeta. cbn [bot reminders auto_responses].
  destruct job_queue as [queue|]; [| done].
  change (queue _) with (queue j). by destruct (queue j).
Qed.





Lemma isspace_lower_char (c : ascii) :
  Text.isspace (Text.lower_char c) = Text.isspace c.
Proof. destruct c as [[] [] [] [] [] [] [] []]; reflexivity. Qed.

Lemma no_space_lower (s : string) : no_space (Text.lower s) = no_space s.
Proof.
  unfold no_space. induction s as [|c s IH]; simpl; [done |].
  by rewrite isspace_lower_char, IH.
Qed.

Lemma spaces_no_space (s : string) : no_space s = true -> Strptime.spaces s = [].
Proof.
  destruct s as [|c s]; simpl; [done |].
  intros [Hc _]%andb_true_iff. by destruct (Text.isspace c).
Qed.

Lemma one_rest_no_space (ok : ascii -> bool) (s m rest : string) :
  no_space s = true -> In (m, rest) (Strptime.one ok s) -> no_space rest = true.
Proof.
  destruct s as [|c s]; simpl; [done |].
  intros [_ Hs]%andb_true_iff. destruct (ok c); simpl; [| done].
  by intros [[= _ <-] | []].
Qed.

(** What a match leaves over of a text without whitespace has none. *)
Lemma rmatch_rest_no_space (r : Strptime.regex) (s m rest : string) :
  no_space s = true -> In (m, rest) (Strptime.rmatch r s) -> no_space rest = true.
Proof.
  revert s m rest. induction r as [c | lo hi | | | r1 IH1 r2 IH2 | r1 IH1 r2 IH2];
    intros s m rest Hs; simpl.
  - by apply one_rest_no_space.
  - by apply one_rest_no_space.
  - by apply one_rest_no_space.
  - by rewrite spaces_no_space.
  - intros [[m1 s1] [H1 H2]]%in_flat_map.
    apply in_map_iff in H2 as [[m2 s2] [[= _ <-] H2]].
    eapply IH2; [| exact H2]. by eapply IH1.
  - intros [H | H]%in_app_iff; [by eapply IH1 | by eapply IH2].
Qed.

Lemma flat_map_nil {A B : Type} (f : A -> list B) (l : list A) :
  (forall x, In x l -> f x = []) -> flat_map f l = [].
Proof.
  induction l as [|x l IH]; simpl; [done |]. intros H.
  rewrite (H x) by (by left). apply IH. intros y Hy. apply H. by right.
Qed.

(** A format with whitespace matches no text without whitespace. *)
Lemma match_items_needs_space (items : list Strptime.item) (s : string) :
  no_space s = true -> In (Strptime.Plain Strptime.Spaces) items ->
  Strptime.match_items items s = [].
Proof.
  revert s. induction items as [|it items IH]; intros s Hs; [done |].
  intros [-> | Hin].
  - simpl. by rewrite spaces_no_space.
  - destruct it as [name r | r]; simpl; apply flat_map_nil; intros [m s1] H1.
    + rewrite IH; [done | by eapply rmatch_rest_no_space | done].
    + apply IH; [by eapply rmatch_rest_no_space | done].
Qed.

Lemma formats_need_space (fmt : string) :
  In fmt formats ->
  exists items,
    Strptime.pattern fmt = Some items /\ In (Strptime.Plain Strptime.Spaces) items.
Proof.
  intros [<- | [<- | [<- | [<- | []]]]]; eexists; (split; [reflexivity |]);
    simpl; tauto.
Qed.

(** X7.  A time argument without whitespace (every token of [context.args]
    is one) that, in lower case, is neither relative shorthand nor starts
    with "tomorrow" is never a time: all four absolute formats need
    whitespace between date and time, so [parse_time] returns [None] and
    [/remind] by an admin replies "Invalid time format" and changes
    nothing.  The absolute formats cannot be reached through [/remind]. *)
Theorem remind_command_token
    (cfg : config) (self : AutoResponderBot) (u : update)
    (time_str : string) (rest : list string) (job_queue : option JobQueue)
    (now1 now2 now3 : datetime) :
  no_space time_str = true ->
  relative_re (Text.lower time_str) = false ->
  Text.startswith "tomorrow" (Text.lower time_str) = false ->
  parse_time now1 time_str = Ok None
  /\ (_is_admin cfg (effective_user u) = true -> rest <> [] ->
      remind_command cfg self u (time_str :: rest) job_queue now1 now2 now3
      = reply self TimeFormatInvalid).
Proof.
  intros Hs Hrel Htom.
  assert (Hnorm : Text.strip (Text.lower time_str) = Text.lower time_str)
    by (apply strip_id; fold (no_space (Text.lower time_str));
        by rewrite no_space_lower).
  assert (Hparse : parse_time now1 time_str = Ok None).
  { apply parse_time_no_match; rewrite Hnorm; [done | done |].
    intros fmt Hfmt. destruct (formats_need_space fmt Hfmt) as (items & Hp & Hin).
    rewrite (strptime_no_match fmt items); [done | done |].
    apply match_items_needs_space; [by rewrite no_space_lower | done]. }
  split; [done |]. intros Hadmin Hrest. unfold remind_command.
  rewrite Hadmin. simpl. destruct rest; [done |]. by rewrite Hparse.
Qed.

(** After [strip] and [lower] a bare "tomorrow" is nine o'clock next day. *)
Lemma parse_time_tomorrow_word (now : datetime) (raw : string) :
  valid now -> ordinal now < _MAXORDINAL ->
  Text.strip (Text.lower raw) = "tomorrow" ->
  parse_time now raw = Ok (Some (mk_datetime (ordinal now + 1) 9 0 0 0)).
Proof.
  intros Hv Hlast Hraw. unfold parse_time. rewrite Hraw.
  change (relative_re "tomorrow") with false.
  change (Text.startswith "tomorrow" "tomorrow") with true. cbv iota.
  by rewrite tomorrow_at_nine.
Qed.

(** X8.  [/remind tomorrow ...] by an admin, with the comparison clock still
    on the day the parser saw and a scheduler that accepts: only the word
    "tomorrow" reaches the parser, so the reminder is set for 09:00:00 of
    the next day whatever follows, and everything that follows, a time such
    as "9pm" included, is the reminder's message. *)
Theorem remind_command_tomorrow
    (cfg : config) (self : AutoResponderBot) (u : update)
    (time_str : string) (rest : list string) (queue : JobQueue)
    (now1 now2 now3 : datetime) :
  _is_admin cfg (effective_user u) = true ->
  rest <> [] ->
  Text.strip (Text.lower time_str) = "tomorrow" ->
  valid now1 -> ordinal now1 < _MAXORDINAL ->
  ordinal now2 <= ordinal now1 ->
  (forall j, queue j = Ok tt) ->
  let nine := mk_datetime (ordinal now1 + 1) 9 0 0 0 in
  let out :=
    remind_command cfg self u (time_str :: rest) (Some queue) now1 now2 now3 in
  bot out = with_reminder self (new_reminder u rest nine)
  /\ message (new_reminder u rest nine) = Text.join " " rest
  /\ calls out =
       [save_data (bot out); run_once (new_job self u rest nine now3);
        reply_text (ReminderSet nine (Text.join " " rest)
                      (diff_micros nine now3))].
Proof.
  intros Hadmin Hrest Hword Hv Hlast Hday Hq nine out. subst out.
  rewrite (remind_command_accepted cfg self u _ rest (Some queue) now1 now2 now3 nine);
    [| done | done | by apply parse_time_tomorrow_word |].
  - rewrite Hq. done.
  - unfold leb, cmp. simpl. destruct (Z.compare_spec (ordinal now1 + 1) (ordinal now2)); [lia | lia | done].
Qed.

(** X9.  A reminder that [/remind] accepts and schedules, and whose job then
    runs with a gateway that delivers: the job built by the command is sent
    to the chat of the request with the request's message, and afterwards
    the list holds the reminders it held before the request (in the same
    order, and the whole state is the one before the request, when no equal
    reminder was in the list); the rules are untouched. *)
Theorem remind_then_send_reminder
    (cfg : config) (self : AutoResponderBot) (u : update)
    (time_str : string) (rest : list string) (queue : JobQueue)
    (gateway : Gateway) (now1 now2 now3 remind_time : datetime) :
  _is_admin cfg (effective_user u) = true ->
  rest <> [] ->
  parse_time now1 time_str = Ok (Some remind_time) ->
  leb remind_time now2 = false ->
  (forall j, queue j = Ok tt) ->
  (forall chat t, gateway chat t = Ok tt) ->
  let r := new_reminder u rest remind_time in
  let j := new_job self u rest remind_time now3 in
  let set :=
    remind_command cfg self u (time_str :: rest) (Some queue) now1 now2 now3 in
  let sent := send_reminder (bot set) j gateway in
  In (run_once j) (calls set)
  /\ reminders (bot set) = reminders self ++ [r]
  /\ calls sent = [send_message (Some (effective_chat u))
                     (ReminderDue (Text.join " " rest));
                   save_data (bot sent)]
  /\ Permutation (reminders (bot sent)) (reminders self)
  /\ auto_responses (bot sent) = auto_responses self
  /\ (~ In r (reminders self) -> bot sent = self).
Proof.
  intros Hadmin Hrest Hparse Hle Hq Hg r j set sent. subst sent set.
  rewrite (remind_command_accepted cfg self u _ rest (Some queue) now1 now2 now3
             remind_time) by done.
  rewrite Hq. cbn [bot calls]. fold r. fold j.
  split; [simpl; tauto |]. split; [done |].
  unfold send_reminder. change (data_reminder j) with r. rewrite Hg.
  assert (Hin : Reminder_in r (reminders (with_reminder self r)) = true).
  { apply Reminder_in_spec. simpl. apply in_or_app. right. by left. }
  rewrite Hin. cbn [bot calls reminders auto_responses with_reminder].
  split; [done |]. split; [apply Reminder_remove_appended_perm |].
  split; [done |]. intros Hnew.
  rewrite Reminder_remove_appended by done. by destruct self.
Qed.

End Remind.

(** ** The time-expression parser: what it returns is in range *)

Section Validity.
Import Datetime Strptime.

#[local] Ltac Zify.zify_post_hook ::= Z.to_euclidean_division_equations.

Lemma _ymd2ord_range (y m d : Z) :
  _check_date_fields y m d = true -> 1 <= _ymd2ord y m d <= _MAXORDINAL.
Proof.
  unfold _check_date_fields, MINYEAR, MAXYEAR.
  rewrite !andb_true_iff, !Z.leb_le. intros [[[[[Hy1 Hy2] Hm1] Hm2] Hd1] Hd2].
  assert (Hm : m = 1 \/ m = 2 \/ m = 3 \/ m = 4 \/ m = 5 \/ m = 6 \/ m = 7
               \/ m = 8 \/ m = 9 \/ m = 10 \/ m = 11 \/ m = 12) by lia.
  unfold _ymd2ord, _days_before_year, _days_before_month, _days_in_month,
    _is_leap, _MAXORDINAL in *.
  repeat destruct Hm as [-> | Hm]; try subst m; simpl in *;
    destruct (Z.eqb_spec (y mod 4) 0), (Z.eqb_spec (y mod 100) 0),
      (Z.eqb_spec (y mod 400) 0); simpl in *; lia.
Qed.

(** What the constructor returns is a [datetime]. *)
Lemma new_valid (y m d h mi s us : Z) (t : datetime) :
  new y m d h mi s us = Ok t -> valid t.
Proof.
  unfold new. destruct (_check_date_fields y m d) eqn:Hd; [| done].
  destruct (_check_time_fields h mi s us) eqn:Ht; [| done].
  intros [= <-]. unfold valid. simpl.
  split; [by apply _ymd2ord_range |].
  unfold _check_time_fields in Ht.
  rewrite !andb_true_iff, !Z.leb_le in Ht. lia.
Qed.

(** So is every sum of a [datetime] and a [timedelta] that is returned. *)
Lemma add_valid (self : datetime) (other : timedelta) (t : datetime) :
  add self other = Ok t -> valid t.
Proof.
  unfold add, timedelta_add, timedelta_new.
  destruct (_ <=? 999999999); [| done]. simpl.
  destruct (_ <=? 999999999); [| done]. simpl.
  destruct ((0 <? _) && _) eqn:Hrange; [| done].
  apply andb_true_iff in Hrange as [H0%Z.ltb_lt H1%Z.leb_le].
  intros [= <-]. unfold valid. simpl. split; [lia |].
  repeat split; lia.
Qed.

Lemma now_plus_valid (now : datetime) (delta : result timedelta) (t : datetime) :
  now_plus now delta = Ok t -> valid t.
Proof. unfold now_plus. destruct delta; simpl; [apply add_valid | done]. Qed.

Lemma from_groups_valid (found : groupdict) (t : datetime) :
  from_groups found = Ok t -> valid t.
Proof.
  unfold from_groups.
  repeat match goal with
  | |- context [bind ?x _] => destruct x; simpl; [| done]
  end.
  apply new_valid.
Qed.

Lemma strptime_valid (data_string format : string) (t : datetime) :
  strptime data_string format = Ok t -> valid t.
Proof.
  unfold strptime. destruct (pattern format); [| done].
  destruct (match_items _ _) as [|[found rest] _]; [done |].
  destruct (negb _); [done | apply from_groups_valid].
Qed.

Lemma try_formats_valid (time_str : string) (fmts : list string) (t : datetime) :
  try_formats time_str fmts = Ok (Some t) -> valid t.
Proof.
  induction fmts as [|fmt fmts IH]; simpl; [done |].
  destruct (strptime time_str fmt) as [r | e] eqn:H.
  - intros [= <-]. by eapply strptime_valid.
  - by destruct e.
Qed.

(** X12.  Whatever the clock and the input, a time [parse_time] returns is in
    the range of [datetime]: between year 1 and year 9999, with the time of
    day in range.  Where the arithmetic would leave that range it raises
    instead. *)
Theorem parse_time_valid (now : datetime) (time_str : string) (t : datetime) :
  parse_time now time_str = Ok (Some t) -> valid t.
Proof.
  unfold parse_time.
  destruct (relative_re _).
  - destruct (int _) as [num |]; simpl; [| done].
    repeat match goal with
    | |- context [if bool_decide ?P then _ else _] => destruct (bool_decide P)
    end; try done;
      match goal with
      | |- context [now_plus ?n ?d] =>
          destruct (now_plus n d) as [r |] eqn:H; simpl; [| done];
          intros [= <-]; by eapply now_plus_valid
      end.
  - destruct (Text.startswith _ _); [| apply try_formats_valid].
    destruct (now_plus _ _) as [tomorrow |] eqn:H; simpl; [| done].
    apply now_plus_valid in H.
    assert (Hrep : forall time_obj, valid time_obj ->
              valid (replace_hour_minute tomorrow (hour time_obj) (minute time_obj))).
    { intros o Ho. unfold valid, replace_hour_minute in *. simpl. lia. }
    destruct (8 <? _); [| by intros [= <-]].
    destruct (strptime _ "%I%p") eqn:H1.
    + intros [= <-]. by eapply Hrep, strptime_valid.
    + destruct (strptime _ "%H:%M") eqn:H2; intros [= <-]; [| done].
      by eapply Hrep, strptime_valid.
Qed.

End Validity.

(** ** Start-up *)

Section Startup.

Lemma setup_jobs_from_In (i : nat) (l : list Reminder) (clock : startup_clock)
    (j : startup_job) :
  In j (setup_jobs_from i l clock) <->
  exists k r,
    l !! k = Some r /\ j = startup_job_of clock (i + k) r
    /\ Datetime.leb (datetime r) (fst (clock (i + k)%nat)) = false.
Proof.
  revert i. induction l as [|x l IH]; intros i; simpl.
  - split; [done | by intros (k & r & H & _)].
  - assert (Hshift : forall k, (S i + k)%nat = (i + S k)%nat) by (intros; lia).
    destruct (Datetime.leb (datetime x) (fst (clock i))) eqn:Hx; simpl.
    + rewrite IH. split.
      * intros (k & r & Hk & -> & Hr). exists (S k), r. by rewrite <- Hshift.
      * intros (k & r & Hk & -> & Hr). destruct k as [|k]; simpl in Hk.
        -- injection Hk as ->. rewrite Nat.add_0_r in Hr. congruence.
        -- exists k, r. by rewrite Hshift.
    + rewrite IH. split.
      * intros [<- | (k & r & Hk & -> & Hr)].
        -- exists 0%nat, x. by rewrite Nat.add_0_r.
        -- exists (S k), r. by rewrite <- Hshift.
      * intros (k & r & Hk & -> & Hr). destruct k as [|k]; simpl in Hk.
        -- injection Hk as ->. left. by rewrite Nat.add_0_r.
        -- right. exists k, r. by rewrite Hshift.
Qed.

Lemma setup_jobs_from_indices (i : nat) (l : list Reminder)
    (clock : startup_clock) :
  StronglySorted lt (map startup_index (setup_jobs_from i l clock))
  /\ Forall (fun j => (i <= startup_index j)%nat) (setup_jobs_from i l clock).
Proof.
  revert i. induction l as [|x l IH]; intros i; simpl.
  - split; constructor.
  - destruct (IH (S i)) as [Hs Hf].
    assert (Hf' : Forall (fun j => (i <= startup_index j)%nat)
                    (setup_jobs_from (S i) l clock)).
    { eapply Forall_impl; [exact Hf |]. simpl. intros j Hj. lia. }
    destruct (negb _); simpl; [| done].
    split; [| by constructor].
    constructor; [done |]. apply List.Forall_map.
    eapply Forall_impl; [exact Hf |]. simpl. intros j Hj. lia.
Qed.

Lemma setup_jobs_from_app (i : nat) (l1 l2 : list Reminder)
    (clock : startup_clock) :
  setup_jobs_from i (l1 ++ l2) clock =
    setup_jobs_from i l1 clock ++ setup_jobs_from (i + length l1) l2 clock.
Proof.
  revert i. induction l1 as [|x l1 IH]; intros i; simpl.
  - by rewrite Nat.add_0_r.
  - rewrite IH. replace (S i + length l1)%nat with (i + S (length l1))%nat by lia.
    by destruct (negb _).
Qed.

(** X13.  At start-up [setup_jobs] schedules nothing without a job queue.
    With one, whatever the queue answers, it schedules exactly the loaded
    reminders whose time is after the clock reading made for them: each
    with the reminder as data and its position in the list as the number in
    the job's name, in the order of the list, and none twice. *)
Theorem setup_jobs_spec (self : AutoResponderBot) (clock : startup_clock) :
  setup_jobs self None clock = []
  /\ forall queue,
       let jobs := setup_jobs self (Some queue) clock in
       (forall j, In j jobs <->
          exists i r,
            reminders self !! i = Some r /\ j = startup_job_of clock i r
            /\ Datetime.leb (datetime r) (fst (clock i)) = false)
       /\ StronglySorted lt (map startup_index jobs)
       /\ (length jobs <= length (reminders self))%nat.
Proof.
  split; [done |]. intros queue jobs. subst jobs. unfold setup_jobs.
  split; [intros j; apply (setup_jobs_from_In 0) |].
  split; [apply setup_jobs_from_indices |].
  generalize 0%nat.
  induction (reminders self) as [|x l IH]; intros i; simpl; [done |].
  specialize (IH (S i)). destruct (negb _); simpl; lia.
Qed.

(** X14.  A reminder that [/remind] accepts while there is no job queue is
    stored without a job.  At the next start [setup_jobs] schedules what it
    would have scheduled without it, and after that the new reminder, under
    the number of its position, exactly when its time is still after the
    clock. *)
Theorem remind_command_then_setup_jobs
    (cfg : config) (self : AutoResponderBot) (u : update)
    (time_str : string) (rest : list string)
    (now1 now2 now3 remind_time : Datetime.datetime) :
  _is_admin cfg (effective_user u) = true ->
  rest <> [] ->
  parse_time now1 time_str = Ok (Some remind_time) ->
  Datetime.leb remind_time now2 = false ->
  let out := remind_command cfg self u (time_str :: rest) None now1 now2 now3 in
  let i := length (reminders self) in
  (forall j, ~ In (run_once j) (calls out))
  /\ forall queue clock,
       setup_jobs (bot out) (Some queue) clock =
         setup_jobs self (Some queue) clock
         ++ (if Datetime.leb remind_time (fst (clock i)) then []
             else [startup_job_of clock i (new_reminder u rest remind_time)]).
Proof.
  intros Hadmin Hrest Hparse Hle out i. subst out i.
  rewrite (remind_command_accepted cfg self u time_str rest None now1 now2 now3
             remind_time Hadmin Hrest Hparse Hle).
  cbv zeta. simpl. split.
  - intros j [H | [H | []]]; discriminate.
  - intros queue clock. rewrite setup_jobs_from_app. simpl.
    by destruct (Datetime.leb remind_time (fst (clock _))).
Qed.


End Startup.

(** ** Sequences of events *)

Section Events.

Lemma _is_admin_false (cfg : config) (user : Z) :
  _is_admin cfg user = false <-> ~ In user (admin_ids cfg).
Proof. rewrite <- _is_admin_spec. by destruct (_is_admin cfg user). Qed.

(** The cases of a handler, down to the outcomes it builds. *)
#[local] Ltac handler_cases :=
  repeat first
    [ progress (cbv zeta; cbn [bot calls escaped reply failed negb])
    | match goal with
      | |- context [if ?b then _ else _] => destruct b eqn:?
      | |- context [match ?x with _ => _ end] => destruct x eqn:?
      end ].

(** An event changes the rules of its commander only. *)
Lemma dispatch_rules_of_others (cfg : config) (self : AutoResponderBot)
    (ev : event) (v : Z) :
  commander ev <> Some v ->
  auto_responses (bot (dispatch cfg self ev)) !! v = auto_responses self !! v.
Proof.
  intros Hv.
  assert (Hne : forall u, commander ev = Some (effective_user u) ->
            forall l, <[effective_user u := l]> (auto_responses self) !! v
                      = auto_responses self !! v).
  { intros u Hu l. apply lookup_insert_ne. congruence. }
  destruct ev; simpl in *; specialize (Hne u eq_refl) || clear Hne.
  all: unfold add_response_command, add_exact_response_command,
         list_responses_command, delete_response_command,
         toggle_response_command, remind_command, reminders_command,
         delete_reminder_command, handle_message, send_reminder,
         append_response, set_responses.
  all: handler_cases; try done; cbn [auto_responses]; try apply Hne.
Qed.

(** A command of a user outside the admin list changes nothing. *)
Lemma dispatch_denied (cfg : config) (self : AutoResponderBot) (ev : event)
    (v : Z) :
  commander ev = Some v -> _is_admin cfg v = false ->
  dispatch cfg self ev = reply self PermissionDenied.
Proof.
  intros Hv Ha.
  destruct ev; simpl in *; try discriminate; injection Hv as <-.
  all: unfold add_response_command, add_exact_response_command,
         list_responses_command, delete_response_command,
         toggle_response_command, remind_command, reminders_command,
         delete_reminder_command.
  all: by rewrite Ha.
Qed.

(** X15.  Whatever events the bot handles, the rules of a user who is not in
    the admin list stay as they were loaded: nobody else's command reaches
    them, and the user's own commands are denied.  So the bot answers the
    user's messages at the end as it did at the start. *)
Theorem run_keeps_rules_of_others (cfg : config) (self : AutoResponderBot)
    (evs : list event) (v : Z) :
  ~ In v (admin_ids cfg) ->
  auto_responses (run cfg self evs) !! v = auto_responses self !! v
  /\ forall chat t,
       calls (handle_message (run cfg self evs) (incoming v chat t))
       = calls (handle_message self (incoming v chat t)).
Proof.
  intros Hv. apply _is_admin_false in Hv.
  assert (H : auto_responses (run cfg self evs) !! v = auto_responses self !! v).
  { revert self. induction evs as [|ev evs IH]; intros self; simpl; [done |].
    rewrite IH. destruct (decide (commander ev = Some v)) as [He | He].
    - by rewrite (dispatch_denied cfg self ev v He Hv).
    - by apply dispatch_rules_of_others. }
  split; [done |]. intros chat t.
  unfold handle_message, incoming, responses_of. simpl. rewrite H.
  destruct (Text.is_empty t); [done |]. by destruct (first_match _ _).
Qed.

Lemma Reminder_remove_sublist (r : Reminder) (l : list Reminder) :
  sublist (Reminder_remove r l) l.
Proof.
  induction l as [|x l IH]; simpl; [done |].
  destruct (Reminder_eq x r); [by apply sublist_cons | by apply sublist_skip].
Qed.

(** X16.  As long as no command comes from a user in the admin list (so
    always with the admin list the source ships, which is empty), the rules
    stay as they were loaded, no job is ever scheduled, and the reminder list
    only loses entries, to the jobs that fire. *)
Theorem run_without_admins (cfg : config) (self : AutoResponderBot)
    (evs : list event) :
  Forall (fun ev => forall v, commander ev = Some v -> ~ In v (admin_ids cfg)) evs ->
  auto_responses (run cfg self evs) = auto_responses self
  /\ sublist (reminders (run cfg self evs)) (reminders self)
  /\ forall c, In c (trace cfg self evs) ->
       match c with
       | run_once _ => False
       | save_data saved => auto_responses saved = auto_responses self
       | _ => True
       end.
Proof.
  intros Hevs. revert self.
  induction Hevs as [|ev evs Hev Hevs IH]; intros self; simpl; [done |].
  assert (Hstep : auto_responses (bot (dispatch cfg self ev)) = auto_responses self
                  /\ sublist (reminders (bot (dispatch cfg self ev))) (reminders self)
                  /\ forall c, In c (calls (dispatch cfg self ev)) ->
                       match c with
                       | run_once _ => False
                       | save_data saved =>
                           auto_responses saved = auto_responses self
                       | _ => True
                       end).
  { destruct (commander ev) as [v|] eqn:Hc.
    - rewrite (dispatch_denied cfg self ev v Hc)
        by (apply _is_admin_false; by apply Hev).
      simpl. repeat split; [done |]. by intros c [<- | []].
    - destruct ev; try discriminate; simpl.
      + unfold handle_message. handler_cases; repeat split; try done;
          by intros c [<- | []].
      + unfold send_reminder. handler_cases; repeat split; try done;
          try apply Reminder_remove_sublist;
          intros c Hin; simpl in Hin;
          repeat destruct Hin as [<- | Hin]; done. }
  destruct Hstep as (Hrules & Hsub & Hcalls).
  destruct (IH (bot (dispatch cfg self ev))) as (IHrules & IHsub & IHcalls).
  split; [congruence |]. split; [by etrans |].
  intros c [Hc | Hc]%in_app_or; [by apply Hcalls |].
  specialize (IHcalls c Hc). destruct c; try done. congruence.
Qed.

Lemma Reminder_remove_Forall (P : Reminder -> Prop) (r : Reminder)
    (l : list Reminder) :
  Forall P l -> Forall P (Reminder_remove r l).
Proof.
  induction 1 as [|x l Hx Hl IH]; simpl; [done |].
  destruct (Reminder_eq x r); [done | by constructor].
Qed.

Lemma dispatch_made_by_commands (cfg : config) (self : AutoResponderBot)
    (ev : event) :
  made_by_commands self -> made_by_commands (bot (dispatch cfg self ev)).
Proof.
  intros [Hrules Hrem].
  assert (Hof : forall v, Forall (fun r => case_sensitive r = false)
                            (responses_of self v)).
  { intros v. unfold responses_of.
    destruct (auto_responses self !! v) eqn:H; simpl; [by eapply Hrules | done]. }
  assert (Hins : forall w l,
            Forall (fun r => case_sensitive r = false) l ->
            forall v rules, <[w := l]> (auto_responses self) !! v = Some rules ->
            Forall (fun r => case_sensitive r = false) rules).
  { intros w l Hl v rules. destruct (decide (w = v)) as [-> | Hne].
    - rewrite lookup_insert_eq. by intros [= <-].
    - rewrite lookup_insert_ne by done. apply Hrules. }
  destruct ev; simpl.
  all: unfold add_response_command, add_exact_response_command,
         list_responses_command, delete_response_command,
         toggle_response_command, remind_command, reminders_command,
         delete_reminder_command, handle_message, send_reminder,
         append_response, set_responses.
  all: handler_cases; try done.
  all: split; cbn [auto_responses reminders]; try done.
  all: try (apply Hins).
  all: try (apply Forall_app; split; [apply Hof | by repeat constructor]).
  all: try (apply Reminder_remove_Forall).
  all: try (apply Forall_app; split; [done | by repeat constructor]).
  all: try done.
  - apply Forall_delete, Hof.
  - apply Forall_insert; [apply Hof |].
    match goal with
    | H : responses_of self _ !! _ = Some ?a |- _ =>
        pose proof (Forall_lookup_1 _ _ _ _ (Hof _) H) as Ha; by destruct a
    end.
Qed.

(** X17.  No command makes a case-sensitive rule, a recurring reminder or a
    reminder without a chat: a state in which there is none stays so,
    whatever events are handled. *)
Theorem run_made_by_commands (cfg : config) (self : AutoResponderBot)
    (evs : list event) :
  made_by_commands self -> made_by_commands (run cfg self evs).
Proof.
  revert self. induction evs as [|ev evs IH]; intros self H; simpl; [done |].
  by apply IH, dispatch_made_by_commands.
Qed.

Lemma matches_lower (r : AutoResponse) (t t' : string) :
  case_sensitive r = false -> Text.lower t = Text.lower t' ->
  matches r t = matches r t'.
Proof. unfold matches. intros -> H. simpl. by rewrite H. Qed.

(** X18.  In such a state the bot does not tell letter case in messages
    apart: two messages that are equal in lower case get the same answer,
    whoever sends them. *)
Theorem handle_message_ignores_case (self : AutoResponderBot) (user chat : Z)
    (t t' : string) :
  made_by_commands self ->
  Text.lower t = Text.lower t' ->
  calls (handle_message self (incoming user chat t))
  = calls (handle_message self (incoming user chat t')).
Proof.
  intros [Hrules _] Hlow. unfold handle_message, incoming. simpl.
  assert (He : Text.is_empty t = Text.is_empty t').
  { destruct t, t'; done. }
  rewrite He. destruct (Text.is_empty t'); [done |].
  assert (Hfm : forall l, Forall (fun r => case_sensitive r = false) l ->
                  first_match l t = first_match l t').
  { induction 1 as [|r l Hr Hl IH]; simpl; [done |].
    by rewrite IH, (matches_lower r t t' Hr Hlow). }
  rewrite Hfm; [done |]. unfold responses_of.
  destruct (auto_responses self !! user) eqn:H; simpl; [by eapply Hrules | done].
Qed.

End Events.

(** ** The properties above at concrete inputs *)

Section Witnesses.

Lemma delete_response_command_spec_witness :
  delete_response_command example_cfg example_bot example_update ["x"]
  = reply example_bot NumberInvalid.
Proof.
  destruct (delete_response_command_spec example_cfg example_bot example_update
              "x" [] eq_refl) as (Hbad & _).
  exact (Hbad ValueError eq_refl).
Defined.

Lemma toggle_response_command_twice_witness :
  bot (toggle_response_command example_cfg
         (bot (toggle_response_command example_cfg example_bot example_update ["2"]))
         example_update ["2"])
  = example_bot.
Proof.
  destruct (toggle_response_command_twice example_cfg example_bot example_update
              "2" [] 2 eq_refl eq_refl ltac:(vm_compute; split; discriminate))
    as (r & _ & _ & _ & _ & Hback & _).
  exact Hback.
Defined.

Lemma add_response_then_message_witness :
  calls (handle_message
           (bot (add_response_command example_cfg example_bot example_update
                   ["Price"; "|"; "ask"; "sales"]))
           (incoming 7 100 "what is the PRICE?"))
  = [reply_text (Verbatim "ask sales")].
Proof.
  destruct (add_response_then_message example_cfg example_bot example_update
              ["Price"; "|"; "ask"; "sales"] "Price" "ask sales"
              eq_refl eq_refl eq_refl ltac:(discriminate) ltac:(discriminate))
    as (_ & Hsame & _).
  exact (Hsame 100 "what is the PRICE?" ltac:(discriminate)).
Defined.

Lemma add_exact_response_then_message_witness :
  calls (handle_message
           (bot (add_exact_response_command example_cfg example_bot example_update
                   ["|"; "nothing"]))
           (incoming 7 100 "anything"))
  = calls (handle_message example_bot (incoming 7 100 "anything")).
Proof.
  destruct (add_exact_response_then_message example_cfg example_bot example_update
              ["|"; "nothing"] "" "nothing" eq_refl eq_refl eq_refl)
    as (_ & _ & Hnever).
  exact (Hnever eq_refl (incoming 7 100 "anything")).
Defined.

Lemma restricted_commands_need_admin_witness :
  reminders_command example_cfg example_bot (mk_update 8 200 None)
  = reply example_bot PermissionDenied.
Proof.
  destruct (restricted_commands_need_admin example_cfg example_bot
              (mk_update 8 200 None))
    as (_ & _ & _ & _ & _ & _ & H & _).
  - simpl. intros [H | []]. discriminate H.
  - exact H.
Defined.

Lemma delete_reminder_command_spec_witness :
  exists r,
    reminders (bot (delete_reminder_command example_cfg example_bot
                      example_update ["1"]))
    = Reminder_remove r example_reminders
    /\ message r = "tea".
Proof.
  destruct (delete_reminder_command_spec example_cfg example_bot example_update
              "1" [] eq_refl) as (_ & _ & Hok).
  destruct (Hok 1 eq_refl ltac:(vm_compute; split; discriminate)) as (r & Hr & Hrem & _).
  exists r. split; [exact Hrem |]. by injection Hr as <-.
Defined.


Lemma remind_command_token_witness :
  remind_command example_cfg example_bot example_update
    ["2024-12-25"; "10:30"; "presents"] (Some accepting)
    example_now example_now example_now
  = reply example_bot TimeFormatInvalid.
Proof.
  destruct (remind_command_token example_cfg example_bot example_update
              "2024-12-25" ["10:30"; "presents"] (Some accepting)
              example_now example_now example_now eq_refl eq_refl eq_refl)
    as [_ Hreply].
  exact (Hreply eq_refl ltac:(discriminate)).
Defined.

Lemma remind_command_tomorrow_witness :
  reminders (bot (remind_command example_cfg example_bot example_update
                    ["Tomorrow"; "9pm"; "call"] (Some accepting)
                    example_now example_now example_now))
  = example_reminders
    ++ [mk_Reminder 7 "9pm call" (Datetime.mk_datetime 739246 9 0 0 0) None
          (Some 100)].
Proof.
  destruct (remind_command_tomorrow example_cfg example_bot example_update
              "Tomorrow" ["9pm"; "call"] accepting
              example_now example_now example_now
              eq_refl ltac:(discriminate) eq_refl) as (Hbot & _).
  - unfold Datetime.valid, Datetime._MAXORDINAL. simpl. lia.
  - unfold Datetime._MAXORDINAL. simpl. lia.
  - lia.
  - reflexivity.
  - by rewrite Hbot.
Defined.

Lemma remind_then_send_reminder_witness :
  let set :=
    remind_command example_cfg example_bot example_update ["10m"; "stretch"]
      (Some accepting) example_now example_now example_now in
  let j :=
    new_job example_bot example_update ["stretch"]
      (Datetime.mk_datetime 739245 12 10 0 0) example_now in
  bot (send_reminder (bot set) j delivering) = example_bot.
Proof.
  destruct (remind_then_send_reminder example_cfg example_bot example_update
              "10m" ["stretch"] accepting delivering
              example_now example_now example_now
              (Datetime.mk_datetime 739245 12 10 0 0)
              eq_refl ltac:(discriminate) eq_refl eq_refl
              ltac:(reflexivity) ltac:(reflexivity))
    as (_ & _ & _ & _ & _ & Hback).
  apply Hback. simpl. intros [H | [H | []]]; discriminate H.
Defined.

Lemma parse_time_valid_witness :
  Datetime.valid (Datetime.mk_datetime 739245 12 0 10 0).
Proof. exact (parse_time_valid example_now "10s" _ eq_refl). Defined.

Lemma remind_command_then_setup_jobs_witness :
  setup_jobs
    (bot (remind_command example_cfg example_bot example_update ["10s"; "tea"]
            None example_now example_now example_now))
    (Some (fun _ => Ok tt)) (standing example_now)
  = setup_jobs example_bot (Some (fun _ => Ok tt)) (standing example_now)
    ++ [startup_job_of (standing example_now) 2
          (new_reminder example_update ["tea"]
             (Datetime.mk_datetime 739245 12 0 10 0))].
Proof.
  destruct (remind_command_then_setup_jobs example_cfg example_bot example_update
              "10s" ["tea"] example_now example_now example_now
              (Datetime.mk_datetime 739245 12 0 10 0)
              eq_refl ltac:(discriminate) eq_refl eq_refl) as [_ H].
  exact (H (fun _ => Ok tt) (standing example_now)).
Defined.

Lemma run_keeps_rules_of_others_witness :
  auto_responses
    (run example_cfg example_bot
       [on_addresponse (mk_update 7 100 None) ["a|b"];
        on_addresponse (mk_update 8 200 None) ["c|d"];
        on_deleteresponse (mk_update 7 100 None) ["1"]]) !! 8
  = auto_responses example_bot !! 8.
Proof.
  destruct (run_keeps_rules_of_others example_cfg example_bot
              [on_addresponse (mk_update 7 100 None) ["a|b"];
               on_addresponse (mk_update 8 200 None) ["c|d"];
               on_deleteresponse (mk_update 7 100 None) ["1"]] 8
              ltac:(simpl; lia)) as [H _].
  exact H.
Defined.

Lemma run_without_admins_witness :
  auto_responses
    (run shipped example_bot
       [on_addresponse example_update ["a|b"];
        on_remind example_update ["10s"; "tea"] (Some accepting)
          example_now example_now example_now;
        on_job (mk_job 0 (mk_Reminder 8 "water"
                            (Datetime.mk_datetime 739247 8 30 0 0) None (Some 200))
                  (Datetime.mk_datetime 739247 8 30 0 0) (8, 2)) delivering])
  = auto_responses example_bot.
Proof.
  destruct (run_without_admins shipped example_bot
              [on_addresponse example_update ["a|b"];
               on_remind example_update ["10s"; "tea"] (Some accepting)
                 example_now example_now example_now;
               on_job (mk_job 0 (mk_Reminder 8 "water"
                                   (Datetime.mk_datetime 739247 8 30 0 0) None
                                   (Some 200))
                         (Datetime.mk_datetime 739247 8 30 0 0) (8, 2)) delivering]
              ltac:(repeat constructor; simpl; intros v _ [])) as [H _].
  exact H.
Defined.

Lemma run_made_by_commands_witness :
  made_by_commands
    (run example_cfg example_bot
       [on_addresponse_exact example_update ["Hi|hello"];
        on_toggleresponse example_update ["1"];
        on_remind example_update ["10s"; "tea"] None
          example_now example_now example_now]).
Proof.
  apply run_made_by_commands. split.
  - intros v rules H. unfold example_bot in H. cbn [auto_responses] in H.
    apply lookup_singleton_Some in H as [_ <-]. by repeat constructor.
  - by repeat constructor.
Defined.

Lemma handle_message_ignores_case_witness :
  calls (handle_message example_bot (incoming 7 100 "HELLO"))
  = calls (handle_message example_bot (incoming 7 100 "hello")).
Proof.
  apply handle_message_ignores_case; [| reflexivity]. split.
  - intros v rules H. unfold example_bot in H. cbn [auto_responses] in H.
    apply lookup_singleton_Some in H as [_ <-]. by repeat constructor.
  - by repeat constructor.
Defined.


End Witnesses.
